(** * bond-mcp-server: the report builder of [server.py]

    A shallow embedding of [format_bond_curve_data] and of the tool
    [get_china_bond_curve], with the pandas operations they call.

    Numbers.  The cells of a table are binary64 floats.  Each of them is
    a rational and is kept as one; comparing two cells is exact, so the
    largest and the smallest cell of a column are computed.  What pandas
    derives from a column by floating-point arithmetic ([mean], [var],
    [quantile], [corr], ...) and what [round] makes of it is the work of
    the library, not of this program: sums are rounded at every step, in
    an order the library chooses.  The embedding does not compute those
    numbers; it keeps each of them as the call that yields it. *)

From Stdlib Require Import QArith ZArith.
From Stdlib Require Import List String Ascii Bool Lia Arith.
Import ListNotations.

Local Open Scope string_scope.

(* ================================================================== *)
(** ** Numbers computed by pandas *)
(* ================================================================== *)

(** A correlation matrix, as the calls that build it. *)
Inductive matrix : Type :=
| DataFrame_corr (columns : list (list Q))          (* [frame.corr()] *)
| DataFrame_round (m : matrix) (ndigits : nat).     (* [m.round(ndigits)] *)

(** A binary64 number obtained from the library, as the call that
    yields it.  The arguments are what the program passes: the column,
    [ddof], the quantile, the number of digits, the position. *)
Inductive float64 : Type :=
| Series_mean (values : list Q)                     (* [values.mean()] *)
| Series_median (values : list Q)                   (* [values.median()] *)
| Series_var (values : list Q) (ddof : nat)         (* [values.var(ddof=ddof)] *)
| Series_std (values : list Q) (ddof : nat)         (* [values.std(ddof=ddof)] *)
| Series_quantile (values : list Q) (q : Q)         (* [values.quantile(q)] *)
| py_round (x : float64) (ndigits : nat)            (* [round(float(x), ndigits)] *)
| iloc (m : matrix) (i j : nat).                    (* [m.iloc[i, j]] *)

(* ================================================================== *)
(** ** Python values, dictionaries, exceptions *)
(* ================================================================== *)

(** What a report is made of.  [VNum] is a cell of the table, [VNaN] the
    float NaN, [VFloat] a number computed by the library. *)
#[warnings="-register-all"]
Inductive value : Type :=
| VStr (s : string)
| VNum (q : Q)
| VNaN
| VFloat (x : float64)
| VList (l : list value)
| VDict (d : list (string * value)).

(** A [dict]: keys in insertion order, each key once. *)
Definition dict : Type := list (string * value).

Fixpoint dict_get (d : dict) (k : string) : option value :=
  match d with
  | [] => None
  | (k', v) :: d' => if String.eqb k' k then Some v else dict_get d' k
  end.

(** [d[k] = v]: an existing key keeps its place and takes the new value,
    a new key goes last. *)
Fixpoint dict_set (d : dict) (k : string) (v : value) : dict :=
  match d with
  | [] => [(k, v)]
  | (k', v') :: d' =>
      if String.eqb k' k then (k, v) :: d' else (k', v') :: dict_set d' k v
  end.

Definition dict_keys (d : dict) : list string := map fst d.

Definition has_key (d : dict) (k : string) : bool :=
  match dict_get d k with Some _ => true | None => false end.

(** Subscripting a value that should be a dict. *)
Definition value_get (v : value) (k : string) : option value :=
  match v with
  | VDict d => dict_get d k
  | _ => None
  end.

Fixpoint value_path (v : value) (ks : list string) : option value :=
  match ks with
  | [] => Some v
  | k :: ks' =>
      match value_get v k with
      | Some v' => value_path v' ks'
      | None => None
      end
  end.

(** The exceptions the program can meet.  All of them are subclasses of
    [Exception]; the payload stands for what [str(e)] prints (the wording
    of pandas' messages is abridged, nothing below depends on it). *)
Inductive exn : Type :=
| AssertionError
| KeyError (msg : string)
| ValueError (msg : string)
| TypeError (msg : string)
| ProviderError (msg : string).

Definition str_exn (e : exn) : string :=
  match e with
  | AssertionError => ""
  | KeyError msg => msg
  | ValueError msg => msg
  | TypeError msg => msg
  | ProviderError msg => msg
  end.

Inductive outcome (A : Type) : Type :=
| Return (a : A)
| Raise (e : exn).
Arguments Return {A} a.
Arguments Raise {A} e.

Definition bind {A B : Type} (m : outcome A) (k : A -> outcome B) : outcome B :=
  match m with
  | Return a => k a
  | Raise e => Raise e
  end.

Notation "x <- m ;; k" := (bind m (fun x => k))
  (at level 61, m at next level, right associativity).

(** A loop whose body may raise: the first exception ends it. *)
Fixpoint for_each {A S : Type} (body : S -> A -> outcome S) (s : S)
         (l : list A) : outcome S :=
  match l with
  | [] => Return s
  | a :: l' => s' <- body s a ;; for_each body s' l'
  end.

(* ================================================================== *)
(** ** Timestamps and [strftime] *)
(* ================================================================== *)

(** A calendar date, the content of the column [日期].  pandas keeps
    years within 1677..2262, so [%Y] prints four digits. *)
Record Timestamp : Type := mkTimestamp { year : nat; month : nat; day : nat }.

Definition ts_ltb (a b : Timestamp) : bool :=
  Nat.ltb (year a) (year b)
  || (Nat.eqb (year a) (year b)
      && (Nat.ltb (month a) (month b)
          || (Nat.eqb (month a) (month b) && Nat.ltb (day a) (day b)))).

Definition digit (n : nat) : ascii := ascii_of_nat (48 + n mod 10).

Definition fmt2 (n : nat) : string :=
  String (digit (n / 10)) (String (digit n) "").

Definition fmt4 (n : nat) : string :=
  String (digit (n / 1000)) (String (digit (n / 100)) (fmt2 n)).

(** [t.strftime(fmt)] for the directives the program uses. *)
Fixpoint strftime (fmt : string) (t : Timestamp) : string :=
  match fmt with
  | "" => ""
  | String "%" (String "Y" rest) => fmt4 (year t) ++ strftime rest t
  | String "%" (String "m" rest) => fmt2 (month t) ++ strftime rest t
  | String "%" (String "d" rest) => fmt2 (day t) ++ strftime rest t
  | String c rest => String c (strftime rest t)
  end.

(** [Series.min()] and [Series.max()] on a datetime column; [None] is
    [NaT], the answer on an empty column. *)
Definition ts_min (l : list Timestamp) : option Timestamp :=
  match l with
  | [] => None
  | t :: l' => Some (fold_left (fun m x => if ts_ltb x m then x else m) l' t)
  end.

Definition ts_max (l : list Timestamp) : option Timestamp :=
  match l with
  | [] => None
  | t :: l' => Some (fold_left (fun m x => if ts_ltb m x then x else m) l' t)
  end.

(** [NaT.strftime] raises. *)
Definition strftime_scalar (fmt : string) (t : option Timestamp) : outcome string :=
  match t with
  | Some t => Return (strftime fmt t)
  | None => Raise (ValueError "NaTType does not support strftime")
  end.

(* ================================================================== *)
(** ** Extrema of a pandas [Series]: a numeric column without NaN *)
(* ================================================================== *)

Module Series.

Local Open Scope Q_scope.

Definition Qltb (x y : Q) : bool := negb (Qle_bool y x).

(** [max()], [min()]: NaN ([None]) on an empty column. *)
Definition max (xs : list Q) : option Q :=
  match xs with
  | [] => None
  | x :: xs' => Some (fold_left (fun m y => if Qltb m y then y else m) xs' x)
  end.

Definition min (xs : list Q) : option Q :=
  match xs with
  | [] => None
  | x :: xs' => Some (fold_left (fun m y => if Qltb y m then y else m) xs' x)
  end.

(** Position of the extreme value, scanning from the left and keeping
    the position already held unless a strictly better value shows up. *)
Fixpoint argbest (better : Q -> Q -> bool) (best_pos : nat) (best : Q)
         (pos : nat) (xs : list Q) : nat :=
  match xs with
  | [] => best_pos
  | x :: xs' =>
      if better x best
      then argbest better pos x (S pos) xs'
      else argbest better best_pos best (S pos) xs'
  end.

Definition argmax (xs : list Q) : option nat :=
  match xs with
  | [] => None
  | x :: xs' => Some (argbest (fun y m => Qltb m y) 0%nat x 1%nat xs')
  end.

Definition argmin (xs : list Q) : option nat :=
  match xs with
  | [] => None
  | x :: xs' => Some (argbest (fun y m => Qltb y m) 0%nat x 1%nat xs')
  end.

(** [idxmax()], [idxmin()]: the index label at that position. *)
Definition idxmax (index : list Z) (xs : list Q) : outcome Z :=
  match argmax xs with
  | Some p => Return (nth p index 0%Z)
  | None => Raise (ValueError "attempt to get argmax of an empty sequence")
  end.

Definition idxmin (index : list Z) (xs : list Q) : outcome Z :=
  match argmin xs with
  | Some p => Return (nth p index 0%Z)
  | None => Raise (ValueError "attempt to get argmin of an empty sequence")
  end.

End Series.

(** [float(x)] of a numpy scalar. *)
Definition float (x : option Q) : value :=
  match x with
  | Some q => VNum q
  | None => VNaN
  end.

(* ================================================================== *)
(** ** Data frames *)
(* ================================================================== *)

(** Keep the entries of [l] whose mask bit is set: [l[mask]]. *)
Fixpoint select_mask {A : Type} (mask : list bool) (l : list A) : list A :=
  match mask, l with
  | b :: mask', a :: l' =>
      if b then a :: select_mask mask' l' else select_mask mask' l'
  | _, _ => []
  end.

(** The frame handed to [format_bond_curve_data]: row labels, the column
    [日期], and the maturity columns in column order.  In a frame of
    pandas all columns are as long as the index ([wf_frame]). *)
Record DataFrame : Type := mkDataFrame {
  index : list Z;
  date_col : list Timestamp;
  cols : list (string * list Q)
}.

Definition wf_frame (df : DataFrame) : Prop :=
  List.length (date_col df) = List.length (index df)
  /\ Forall (fun c => List.length (snd c) = List.length (index df)) (cols df).

(** [df.columns] *)
Definition columns (df : DataFrame) : list string :=
  "日期" :: map fst (cols df).

(** [df[term]]: every column carrying that label. *)
Definition getitem (df : DataFrame) (term : string) : list (list Q) :=
  map snd (filter (fun c => String.eqb (fst c) term) (cols df)).

(** [df[terms]]: the columns of each label, in the order of [terms]. *)
Definition getitems (df : DataFrame) (terms : list string) : list (list Q) :=
  flat_map (getitem df) terms.

(** [df.loc[label, column]] on a column of strings: the cell when one row
    has that label, a Series of cells when several have it. *)
Definition loc (index : list Z) (cells : list string) (label : Z) : outcome value :=
  match select_mask (map (Z.eqb label) index) cells with
  | [] => Raise (KeyError "label not in index")
  | [s] => Return (VStr s)
  | l => Return (VList (map VStr l))
  end.

(* ================================================================== *)
(** ** [format_bond_curve_data] *)
(* ================================================================== *)

(** [d[p1]...[pn][k] = v] on nested dicts. *)
Fixpoint dict_set_path (d : dict) (path : list string) (k : string) (v : value) : dict :=
  match path with
  | [] => dict_set d k v
  | p :: path' =>
      match dict_get d p with
      | Some (VDict inner) => dict_set d p (VDict (dict_set_path inner path' k v))
      | _ => d
      end
  end.

(** The body of the loop over [terms] (lines 27-51): the entry stored
    under [result["series"][term]]. *)
Definition series_entry (df : DataFrame) (term : string) : outcome value :=
  let date_str := map (strftime "%Y%m%d") (date_col df) in
  match getitem df term with
  | [] => Raise (KeyError term)
  | [values] =>
      let daily_data :=
        map (fun row => VDict [("date", VStr (fst row)); ("yield", VNum (snd row))])
            (combine date_str values) in
      let max_value := float (Series.max values) in
      imax <- Series.idxmax (index df) values ;;
      max_date <- loc (index df) date_str imax ;;
      let min_value := float (Series.min values) in
      imin <- Series.idxmin (index df) values ;;
      min_date <- loc (index df) date_str imin ;;
      let stats :=
        [("max", VDict [("value", max_value); ("date", max_date)]);
         ("min", VDict [("value", min_value); ("date", min_date)]);
         ("mean", VFloat (py_round (Series_mean values) 4));
         ("median", VFloat (py_round (Series_median values) 4));
         ("variance", VFloat (py_round (Series_var values 0) 6));
         ("std_dev", VFloat (py_round (Series_std values 0) 4));
         ("quantiles",
          VDict [("q1", VFloat (py_round (Series_quantile values (1 # 4)) 4));
                 ("q3", VFloat (py_round (Series_quantile values (3 # 4)) 4))])] in
      Return (VDict [("daily_data", VList daily_data); ("statistics", VDict stats)])
  | _ :: _ :: _ =>
      (* a label carried by several columns: [values] is a frame, its
         [max()] a Series, and [float] refuses it *)
      Raise (TypeError "cannot convert the series to <class 'float'>")
  end.

(** The two nested loops of lines 57-60. *)
Definition correlation_entries (terms : list string)
           (corr_matrix : matrix) (result : dict) : dict :=
  fold_left
    (fun result i =>
       fold_left
         (fun result j =>
            let key := nth i terms "" ++ "_" ++ nth j terms "" in
            dict_set_path result ["analysis"; "correlation"] key
                          (VFloat (iloc corr_matrix i j)))
         (seq (i + 1) (List.length terms - (i + 1)))
         result)
    (seq 0 (List.length terms))
    result.

Definition format_bond_curve_data (curve_name : string) (bond_yield_curve : DataFrame)
  : outcome value :=
  min_date <- strftime_scalar "%Y-%m-%d" (ts_min (date_col bond_yield_curve)) ;;
  max_date <- strftime_scalar "%Y-%m-%d" (ts_max (date_col bond_yield_curve)) ;;
  let result : dict :=
    [("metadata",
      VDict [("curve_name", VStr curve_name);
             ("time_range", VList [VStr min_date; VStr max_date]);
             ("currency", VStr "CNY")]);
     ("series", VDict [])] in
  let terms := filter (fun col => negb (String.eqb col "日期")) (columns bond_yield_curve) in
  result <- for_each
              (fun result term =>
                 entry <- series_entry bond_yield_curve term ;;
                 Return (dict_set_path result ["series"] term entry))
              result terms ;;
  let result :=
    if Nat.ltb 1 (List.length terms) then
      let result := dict_set result "analysis" (VDict []) in
      let result := dict_set_path result ["analysis"] "correlation" (VDict []) in
      let corr_matrix :=
        DataFrame_round (DataFrame_corr (getitems bond_yield_curve terms)) 3 in
      correlation_entries terms corr_matrix result
    else result in
  Return (VDict result).

(* ================================================================== *)
(** ** The tool [get_china_bond_curve] *)
(* ================================================================== *)

(** What [ak.bond_china_yield] returns: one row per date and curve, with
    the curve's name in [曲线名称] and one numeric column per maturity. *)
Record ProviderFrame : Type := mkProviderFrame {
  p_index : list Z;
  p_curve : list string;
  p_date : list Timestamp;
  p_cols : list (string * list Q)
}.

(** The remote call: it answers with a frame or raises. *)
Definition provider : Type := string -> string -> outcome ProviderFrame.

(** What the tool does besides computing its answer. *)
Inductive event : Type :=
| CallProvider (start_date end_date : string)
| CallCore (curve_name : string).

(** Computations of the tool: they may raise and they leave a trace. *)
Definition io (A : Type) : Type := list event -> outcome A * list event.

Definition io_ret {A : Type} (a : A) : io A := fun tr => (Return a, tr).

Definition io_raise {A : Type} (e : exn) : io A := fun tr => (Raise e, tr).

Definition io_bind {A B : Type} (m : io A) (k : A -> io B) : io B :=
  fun tr =>
    match m tr with
    | (Return a, tr') => k a tr'
    | (Raise e, tr') => (Raise e, tr')
    end.

Definition io_lift {A : Type} (m : outcome A) : io A := fun tr => (m, tr).

Definition io_emit (ev : event) : io unit := fun tr => (Return tt, (tr ++ [ev])%list).

(** [try: m except Exception as e: handler e] *)
Definition try_except {A : Type} (m : io A) (handler : exn -> io A) : io A :=
  fun tr =>
    match m tr with
    | (Return a, tr') => (Return a, tr')
    | (Raise e, tr') => handler e tr'
    end.

(** [assert b] *)
Definition assert (b : bool) : io unit :=
  if b then io_ret tt else io_raise AssertionError.

Notation "x <~ m ;; k" := (io_bind m (fun x => k))
  (at level 61, m at next level, right associativity).
Notation "m ;;; k" := (io_bind m (fun _ => k))
  (at level 61, right associativity).

Definition mem (s : string) (l : list string) : bool := existsb (String.eqb s) l.

Definition CURVE_NAMES : list string :=
  ["中债国债收益率曲线";
   "中债中短期票据收益率曲线(AAA)";
   "中债商业银行普通债收益率曲线(AAA)"].

Definition TERMS : list string :=
  ["3月"; "6月"; "1年"; "3年"; "5年"; "7年"; "10年"; "30年"].

(** [term_list : Union[List[str], str]] *)
Inductive term_arg : Type :=
| TermStr (s : string)
| TermList (l : list string).

(** [start_date, end_date : Union[str, int]] *)
Inductive date_arg : Type :=
| DateStr (s : string)
| DateInt (z : Z).

Definition digits_of_pos (p : positive) : string :=
  (fix go (fuel : nat) (n : Z) (acc : string) : string :=
     match fuel with
     | O => acc
     | S fuel' =>
         let acc' := String (digit (Z.to_nat (n mod 10))) acc in
         if (n / 10 =? 0)%Z then acc' else go fuel' (n / 10)%Z acc'
     end) (Pos.to_nat p) (Zpos p) "".

(** [str(z)] for an int. *)
Definition str_int (z : Z) : string :=
  match z with
  | Z0 => "0"
  | Zpos p => digits_of_pos p
  | Zneg p => "-" ++ digits_of_pos p
  end.

Definition str_date (d : date_arg) : string :=
  match d with
  | DateStr s => s
  | DateInt z => str_int z
  end.

(** Lines 201-203: the rows of the curve, then the columns
    [["日期"] + term_list]; a label with no column is a [KeyError]. *)
Definition select_curve (raw : ProviderFrame) (bond_curve_name : string)
           (term_list : list string) : outcome DataFrame :=
  let mask := map (fun c => String.eqb c bond_curve_name) (p_curve raw) in
  let rows (A : Type) (l : list A) := select_mask mask l in
  let has lbl := existsb (fun c => String.eqb (fst c) lbl) (p_cols raw) in
  match filter (fun lbl => negb (has lbl)) term_list with
  | [] =>
      Return
        {| index := rows Z (p_index raw);
           date_col := rows Timestamp (p_date raw);
           cols :=
             flat_map
               (fun lbl =>
                  map (fun c => (fst c, rows Q (snd c)))
                      (filter (fun c => String.eqb (fst c) lbl) (p_cols raw)))
               term_list |}
  | missing => Raise (KeyError (String.concat ", " missing ++ " not in index"))
  end.

Definition error_report (msg : string) : value := VDict [("error", VStr msg)].

Definition get_china_bond_curve (ak_bond_china_yield : provider)
           (bond_curve_name : string) (term_list : term_arg)
           (start_date end_date : date_arg) : io value :=
  assert (mem bond_curve_name CURVE_NAMES) ;;;
  let term_list :=
    match term_list with
    | TermStr s => [s]
    | TermList l => l
    end in
  assert (forallb (fun term => mem term TERMS) term_list) ;;;
  assert (if String.eqb bond_curve_name "中债中短期票据收益率曲线(AAA)"
          then negb (mem "30年" term_list) else true) ;;;
  let start_date := str_date start_date in
  let end_date := str_date end_date in
  try_except
    (io_emit (CallProvider start_date end_date) ;;;
     bond_china_yield_df <~ io_lift (ak_bond_china_yield start_date end_date) ;;
     match p_index bond_china_yield_df with
     | [] =>
         io_ret (error_report
                   ("No data available for the specified date range: "
                    ++ start_date ++ " to " ++ end_date))
     | _ :: _ =>
         bond_yield_curve <~
           io_lift (select_curve bond_china_yield_df bond_curve_name term_list) ;;
         io_emit (CallCore bond_curve_name) ;;;
         io_lift (format_bond_curve_data bond_curve_name bond_yield_curve)
     end)
    (fun e => io_ret (error_report ("Failed to retrieve data: " ++ str_exn e))).

(* ================================================================== *)
(** ** Vocabulary of the specification *)
(* ================================================================== *)

(** The maturities of a frame, in column order (line 24). *)
Definition terms_of (df : DataFrame) : list string :=
  filter (fun col => negb (String.eqb col "日期")) (columns df).

(** The request passes the three assertions of lines 176-189. *)
Definition valid_request (bond_curve_name : string) (term_list : list string) : Prop :=
  In bond_curve_name CURVE_NAMES
  /\ (forall term, In term term_list -> In term TERMS)
  /\ ~ (bond_curve_name = "中债中短期票据收益率曲线(AAA)" /\ In "30年" term_list).

Definition terms_of_arg (term_list : term_arg) : list string :=
  match term_list with
  | TermStr s => [s]
  | TermList l => l
  end.

Fixpoint contains_char (c : ascii) (s : string) : bool :=
  match s with
  | "" => false
  | String c' s' => Ascii.eqb c' c || contains_char c s'
  end.

Definition underscore_free (s : string) : Prop := contains_char "_" s = false.

(** All pairs [(a, b)] with [a] before [b] in [l]. *)
Fixpoint ordered_pairs {A : Type} (l : list A) : list (A * A) :=
  match l with
  | [] => []
  | a :: l' => (map (pair a) l' ++ ordered_pairs l')%list
  end.

Definition pair_key (p : string * string) : string := fst p ++ "_" ++ snd p.

Definition ts_le (a b : Timestamp) : Prop := ts_ltb b a = false.

Module Spec.

Local Open Scope Q_scope.

(** [p] is the first position of [xs] holding its largest value. *)
Definition first_max_at (xs : list Q) (p : nat) : Prop :=
  (p < List.length xs)%nat
  /\ (forall q, (q < List.length xs)%nat -> nth q xs 0 <= nth p xs 0)
  /\ (forall q, (q < p)%nat -> nth q xs 0 < nth p xs 0).

Definition first_min_at (xs : list Q) (p : nat) : Prop :=
  (p < List.length xs)%nat
  /\ (forall q, (q < List.length xs)%nat -> nth p xs 0 <= nth q xs 0)
  /\ (forall q, (q < p)%nat -> nth p xs 0 < nth q xs 0).

End Spec.

(** The statistics block has its seven entries. *)
Definition STAT_KEYS : list string :=
  ["max"; "min"; "mean"; "median"; "variance"; "std_dev"; "quantiles"].

(** A report whose every maturity of [terms] has its daily data and a
    full statistics block, and which is not an error. *)
Definition complete_report (v : value) (terms : list string) : Prop :=
  value_get v "error" = None
  /\ (exists m, value_get v "metadata" = Some (VDict m))
  /\ forall term, In term terms ->
       exists daily stats,
         value_path v ["series"; term]
         = Some (VDict [("daily_data", VList daily); ("statistics", VDict stats)])
         /\ dict_keys stats = STAT_KEYS.

(** The loop of lines 26-51, seen on the [series] dict alone. *)
Definition series_loop (df : DataFrame) (terms : list string) (series : dict)
  : outcome dict :=
  for_each
    (fun series term =>
       entry <- series_entry df term ;; Return (dict_set series term entry))
    series terms.

(** The pairs [(i, j)] the loops of lines 57-58 visit, in that order. *)
Definition index_pairs (n : nat) : list (nat * nat) :=
  flat_map (fun i => map (pair i) (seq (i + 1) (n - (i + 1)))) (seq 0 n).

(** The same loops, seen on the [correlation] dict alone. *)
Definition correlation_loop (terms : list string)
           (corr_matrix : matrix) (correlation : dict) : dict :=
  fold_left
    (fun c ij =>
       dict_set c (nth (fst ij) terms "" ++ "_" ++ nth (snd ij) terms "")
                (VFloat (iloc corr_matrix (fst ij) (snd ij))))
    (index_pairs (List.length terms))
    correlation.

Definition metadata_of (curve_name min_date max_date : string) : value :=
  VDict [("curve_name", VStr curve_name);
         ("time_range", VList [VStr min_date; VStr max_date]);
         ("currency", VStr "CNY")].

(** The report in closed form. *)
Definition report_of (curve_name min_date max_date : string) (series : dict)
           (df : DataFrame) : value :=
  let terms := terms_of df in
  VDict
    ([("metadata", metadata_of curve_name min_date max_date);
      ("series", VDict series)]
     ++ if Nat.ltb 1 (List.length terms)
        then [("analysis",
               VDict [("correlation",
                       VDict (correlation_loop
                                terms
                                (DataFrame_round
                                   (DataFrame_corr (getitems df terms)) 3)
                                []))])]
        else [])%list.

(** The statistics block of a column, in closed form. *)
Definition statistics_of (values : list Q) (max_date min_date : value) : value :=
  VDict
    [("max", VDict [("value", float (Series.max values)); ("date", max_date)]);
     ("min", VDict [("value", float (Series.min values)); ("date", min_date)]);
     ("mean", VFloat (py_round (Series_mean values) 4));
     ("median", VFloat (py_round (Series_median values) 4));
     ("variance", VFloat (py_round (Series_var values 0) 6));
     ("std_dev", VFloat (py_round (Series_std values 0) 4));
     ("quantiles",
      VDict [("q1", VFloat (py_round (Series_quantile values (1 # 4)) 4));
             ("q3", VFloat (py_round (Series_quantile values (3 # 4)) 4))])].

Definition daily_data_of (dates : list Timestamp) (values : list Q) : value :=
  VList
    (map (fun row => VDict [("date", VStr (fst row)); ("yield", VNum (snd row))])
         (combine (map (strftime "%Y%m%d") dates) values)).

(** What the tool answers once the assertions have passed (lines
    196-207), without the trace. *)
Definition answer (ak_bond_china_yield : provider) (bond_curve_name : string)
           (term_list : list string) (start_date end_date : string) : value :=
  let failed e := error_report ("Failed to retrieve data: " ++ str_exn e) in
  match ak_bond_china_yield start_date end_date with
  | Raise e => failed e
  | Return raw =>
      match p_index raw with
      | [] =>
          error_report ("No data available for the specified date range: "
                        ++ start_date ++ " to " ++ end_date)
      | _ :: _ =>
          match select_curve raw bond_curve_name term_list with
          | Raise e => failed e
          | Return df =>
              match format_bond_curve_data bond_curve_name df with
              | Raise e => failed e
              | Return v => v
              end
          end
      end
  end.

(** A provider table as pandas holds it: every column as long as the
    index, and no label on two columns. *)
Definition wf_provider (raw : ProviderFrame) : Prop :=
  List.length (p_curve raw) = List.length (p_index raw)
  /\ List.length (p_date raw) = List.length (p_index raw)
  /\ Forall (fun c => List.length (snd c) = List.length (p_index raw)) (p_cols raw)
  /\ NoDup (map fst (p_cols raw)).

(** The three assertions of lines 176-189, as one test. *)
Definition passes_assertions (bond_curve_name : string) (term_list : list string) : bool :=
  mem bond_curve_name CURVE_NAMES
  && forallb (fun term => mem term TERMS) term_list
  && (if String.eqb bond_curve_name "中债中短期票据收益率曲线(AAA)"
      then negb (mem "30年" term_list) else true).

(** Whether line 205 is reached: the provider answered with rows and
    every requested label has a column. *)
Definition core_called (ak_bond_china_yield : provider) (bond_curve_name : string)
           (term_list : list string) (start_date end_date : string) : bool :=
  match ak_bond_china_yield start_date end_date with
  | Raise _ => false
  | Return raw =>
      match p_index raw with
      | [] => false
      | _ :: _ =>
          match select_curve raw bond_curve_name term_list with
          | Raise _ => false
          | Return _ => true
          end
      end
  end.

(** ** Sample inputs *)

(** The value a computation returned. *)
Definition returned (o : outcome value) : value :=
  match o with
  | Return v => v
  | Raise _ => VNaN
  end.

(** Two trading days of the ten-year point (the docstring's example). *)
Definition example_frame : DataFrame :=
  {| index := [0%Z; 1%Z];
     date_col := [mkTimestamp 2025 1 2; mkTimestamp 2025 1 3];
     cols := [("10年", [16077 # 10000; 16041 # 10000])] |}.

(** Three maturities on three days; the rows kept their labels from a
    larger table.  The first column reaches its maximum twice. *)
Definition tie_frame : DataFrame :=
  {| index := [4%Z; 7%Z; 9%Z];
     date_col := [mkTimestamp 2025 1 2; mkTimestamp 2025 1 3; mkTimestamp 2025 1 6];
     cols := [("3年", [5 # 1; 3 # 1; 5 # 1]);
              ("5年", [1 # 1; 2 # 1; 4 # 1]);
              ("10年", [2 # 1; 3 # 1; 7 # 2])] |}.

(** A provider table with two curves on two days. *)
Definition sample_raw : ProviderFrame :=
  {| p_index := [0%Z; 1%Z; 2%Z; 3%Z];
     p_curve := ["中债国债收益率曲线"; "中债商业银行普通债收益率曲线(AAA)";
                 "中债国债收益率曲线"; "中债商业银行普通债收益率曲线(AAA)"];
     p_date := [mkTimestamp 2025 1 2; mkTimestamp 2025 1 2;
                mkTimestamp 2025 1 3; mkTimestamp 2025 1 3];
     p_cols := [("3月", [1 # 1; 2 # 1; 3 # 1; 4 # 1]);
                ("10年", [16077 # 10000; 2 # 1; 16041 # 10000; 3 # 1])] |}.

Definition sample_provider : provider := fun _ _ => Return sample_raw.

Definition failing_provider : provider :=
  fun _ _ => Raise (ProviderError "connection refused").


(** [tie_frame] with its first two columns exchanged. *)
Definition swapped_frame : DataFrame :=
  {| index := [4%Z; 7%Z; 9%Z];
     date_col := [mkTimestamp 2025 1 2; mkTimestamp 2025 1 3; mkTimestamp 2025 1 6];
     cols := [("5年", [1 # 1; 2 # 1; 4 # 1]);
              ("3年", [5 # 1; 3 # 1; 5 # 1]);
              ("10年", [2 # 1; 3 # 1; 7 # 2])] |}.

(* ================================================================== *)
(** * Properties *)
(* ================================================================== *)

Local Open Scope list_scope.

(** ** Dictionaries *)

Lemma dict_get_set_same (d : dict) (k : string) (v : value) :
  dict_get (dict_set d k v) k = Some v.
Proof.
  induction d as [| [k' v'] d IH]; simpl.
  - now rewrite String.eqb_refl.
  - destruct (String.eqb k' k) eqn:E; simpl.
    + now rewrite String.eqb_refl.
    + now rewrite E.
Qed.

Lemma dict_get_set_other (d : dict) (k k' : string) (v : value) :
  k <> k' -> dict_get (dict_set d k v) k' = dict_get d k'.
Proof.
  intros Hne. induction d as [| [k0 v0] d IH]; simpl.
  - destruct (String.eqb_spec k k'); [contradiction | reflexivity].
  - destruct (String.eqb_spec k0 k) as [-> |]; simpl.
    + destruct (String.eqb_spec k k'); [contradiction | reflexivity].
    + destruct (String.eqb_spec k0 k'); [reflexivity | exact IH].
Qed.

Lemma dict_get_In (d : dict) (k : string) (v : value) :
  dict_get d k = Some v -> In (k, v) d.
Proof.
  induction d as [| [k' v'] d IH]; simpl; [discriminate |].
  destruct (String.eqb_spec k' k) as [-> |].
  - intros [= ->]. now left.
  - intros H. right. auto.
Qed.

Lemma dict_get_None (d : dict) (k : string) :
  dict_get d k = None <-> ~ In k (dict_keys d).
Proof.
  induction d as [| [k' v'] d IH]; simpl.
  - tauto.
  - destruct (String.eqb_spec k' k) as [-> |].
    + split; [discriminate | intros H; exfalso; apply H; now left].
    + rewrite IH. split; [intros H [? | ?]; [contradiction | auto] | tauto].
Qed.

Lemma dict_get_NoDup (d : dict) (k : string) (v : value) :
  NoDup (dict_keys d) -> In (k, v) d -> dict_get d k = Some v.
Proof.
  induction d as [| [k' v'] d IH]; simpl; [tauto |].
  intros Hnd [H | H].
  - injection H as -> ->. now rewrite String.eqb_refl.
  - inversion Hnd as [| ? ? Hni Hnd']; subst.
    destruct (String.eqb_spec k' k) as [-> |].
    + exfalso. apply Hni. change k with (fst (k, v)). now apply in_map.
    + auto.
Qed.

(** Storing under a key the dict does not have yet appends the entry. *)
Lemma dict_set_fresh (d : dict) (k : string) (v : value) :
  ~ In k (dict_keys d) -> dict_set d k v = (d ++ [(k, v)])%list.
Proof.
  induction d as [| [k' v'] d IH]; simpl; [reflexivity |].
  intros Hni. destruct (String.eqb_spec k' k) as [-> |].
  - exfalso. apply Hni. now left.
  - rewrite IH; [reflexivity | tauto].
Qed.

Lemma dict_set_all_fresh (kvs d : dict) :
  NoDup (dict_keys (d ++ kvs)) ->
  fold_left (fun c kv => dict_set c (fst kv) (snd kv)) kvs d = (d ++ kvs)%list.
Proof.
  revert d. induction kvs as [| [k v] kvs IH]; intros d Hnd; simpl.
  - now rewrite app_nil_r.
  - rewrite dict_set_fresh.
    + rewrite IH; rewrite <- app_assoc; [reflexivity | exact Hnd].
    + unfold dict_keys in Hnd. rewrite map_app in Hnd. simpl in Hnd.
      apply NoDup_remove_2 in Hnd. intros Hin. apply Hnd.
      apply in_or_app. now left.
Qed.

(** ** Loops *)

Lemma fold_left_flat_map {A B C : Type} (f : A -> C -> A) (g : B -> list C)
      (l : list B) (a : A) :
  fold_left f (flat_map g l) a = fold_left (fun a x => fold_left f (g x) a) l a.
Proof.
  revert a. induction l as [| x l IH]; intros a; simpl; [reflexivity |].
  now rewrite fold_left_app, IH.
Qed.

Lemma for_each_series (df : DataFrame) (terms : list string) (m : value) (series : dict) :
  for_each
    (fun result term =>
       entry <- series_entry df term ;;
       Return (dict_set_path result ["series"] term entry))
    [("metadata", m); ("series", VDict series)] terms
  = (series' <- series_loop df terms series ;;
     Return [("metadata", m); ("series", VDict series')]).
Proof.
  revert series. induction terms as [| term terms IH]; intros series; simpl.
  - reflexivity.
  - unfold series_loop. simpl.
    destruct (series_entry df term) as [entry | e]; simpl; [| reflexivity].
    rewrite IH. reflexivity.
Qed.

Lemma correlation_entries_loop (terms : list string) (cm : matrix)
      (m s : value) (c : dict) :
  correlation_entries terms cm
    [("metadata", m); ("series", s); ("analysis", VDict [("correlation", VDict c)])]
  = [("metadata", m); ("series", s);
     ("analysis", VDict [("correlation", VDict (correlation_loop terms cm c))])].
Proof.
  unfold correlation_entries, correlation_loop, index_pairs.
  rewrite fold_left_flat_map.
  generalize (seq 0 (List.length terms)) as is_.
  intros is_. revert c. induction is_ as [| i is_ IH]; intros c; simpl.
  - reflexivity.
  - rewrite <- IH. f_equal.
    generalize (seq (i + 1) (List.length terms - (i + 1))) as js.
    intros js. revert c. clear IH.
    induction js as [| j js IH]; intros c; simpl; [reflexivity |].
    rewrite <- IH. reflexivity.
Qed.

(** [format_bond_curve_data] in closed form. *)
Lemma format_bond_curve_data_eq (curve_name : string) (df : DataFrame) :
  format_bond_curve_data curve_name df
  = (min_date <- strftime_scalar "%Y-%m-%d" (ts_min (date_col df)) ;;
     max_date <- strftime_scalar "%Y-%m-%d" (ts_max (date_col df)) ;;
     series <- series_loop df (terms_of df) [] ;;
     Return (report_of curve_name min_date max_date series df)).
Proof.
  unfold format_bond_curve_data. cbv zeta. fold (terms_of df).
  destruct (strftime_scalar "%Y-%m-%d" (ts_min (date_col df))) as [mn | e];
    cbn [bind]; [| reflexivity].
  destruct (strftime_scalar "%Y-%m-%d" (ts_max (date_col df))) as [mx | e];
    cbn [bind]; [| reflexivity].
  rewrite for_each_series.
  destruct (series_loop df (terms_of df) []) as [series | e];
    cbn [bind]; [| reflexivity].
  unfold report_of. fold (metadata_of curve_name mn mx).
  destruct (Nat.ltb 1 (List.length (terms_of df))); [| reflexivity].
  cbn [dict_set dict_set_path dict_get String.eqb Ascii.eqb Bool.eqb app].
  rewrite correlation_entries_loop. reflexivity.
Qed.

(** ** What a returned report is made of *)

Lemma strftime_scalar_inv (fmt : string) (t : option Timestamp) (s : string) :
  strftime_scalar fmt t = Return s -> exists d, t = Some d /\ s = strftime fmt d.
Proof.
  destruct t as [d |]; simpl; [| discriminate].
  intros [= <-]. now exists d.
Qed.

Lemma format_returns_inv (curve_name : string) (df : DataFrame) (v : value) :
  format_bond_curve_data curve_name df = Return v ->
  exists dmin dmax series,
    ts_min (date_col df) = Some dmin
    /\ ts_max (date_col df) = Some dmax
    /\ series_loop df (terms_of df) [] = Return series
    /\ v = report_of curve_name (strftime "%Y-%m-%d" dmin)
                     (strftime "%Y-%m-%d" dmax) series df.
Proof.
  rewrite format_bond_curve_data_eq.
  destruct (strftime_scalar "%Y-%m-%d" (ts_min (date_col df))) as [mn | e] eqn:Emin;
    cbn [bind]; [| discriminate].
  destruct (strftime_scalar "%Y-%m-%d" (ts_max (date_col df))) as [mx | e] eqn:Emax;
    cbn [bind]; [| discriminate].
  destruct (series_loop df (terms_of df) []) as [series | e]; cbn [bind];
    [| discriminate].
  intros [= <-].
  apply strftime_scalar_inv in Emin as (dmin & -> & ->).
  apply strftime_scalar_inv in Emax as (dmax & -> & ->).
  now exists dmin, dmax, series.
Qed.

(** The entries of [series] after the loop: each maturity has the entry
    [series_entry] computes for it, and nothing else was touched. *)
Lemma series_loop_inv (df : DataFrame) (terms : list string) (s0 s : dict) :
  series_loop df terms s0 = Return s ->
  (forall term, In term terms ->
     exists entry, series_entry df term = Return entry /\ dict_get s term = Some entry)
  /\ (forall k, ~ In k terms -> dict_get s k = dict_get s0 k).
Proof.
  revert s0. induction terms as [| t terms IH]; intros s0; unfold series_loop; simpl.
  - intros [= <-]. split; [tauto | reflexivity].
  - destruct (series_entry df t) as [entry | e] eqn:E; cbn [bind]; [| discriminate].
    intros H. apply IH in H as [Hin Hout]. split.
    + intros term [<- | Hterm]; [| auto].
      destruct (in_dec string_dec t terms) as [Ht | Ht]; [auto |].
      exists entry. split; [assumption |].
      rewrite Hout by assumption. apply dict_get_set_same.
    + intros k Hk. rewrite Hout by tauto.
      apply dict_get_set_other. intros ->. tauto.
Qed.

(** The keys of [series] are the maturities, each once, in the order of
    their first appearance. *)
Lemma dict_keys_set (d : dict) (k : string) (v : value) :
  dict_keys (dict_set d k v)
  = if in_dec string_dec k (dict_keys d) then dict_keys d else dict_keys d ++ [k].
Proof.
  induction d as [| [k' v'] d IH]; simpl; [reflexivity |].
  destruct (String.eqb_spec k' k) as [-> |]; simpl.
  - destruct (string_dec k k); [reflexivity | contradiction].
  - rewrite IH. destruct (string_dec k' k); [contradiction |].
    destruct (in_dec string_dec k (dict_keys d)); reflexivity.
Qed.

Lemma series_entry_inv (df : DataFrame) (term : string) (entry : value) :
  series_entry df term = Return entry ->
  exists values imax imin max_date min_date,
    getitem df term = [values]
    /\ Series.idxmax (index df) values = Return imax
    /\ Series.idxmin (index df) values = Return imin
    /\ loc (index df) (map (strftime "%Y%m%d") (date_col df)) imax = Return max_date
    /\ loc (index df) (map (strftime "%Y%m%d") (date_col df)) imin = Return min_date
    /\ entry = VDict [("daily_data", daily_data_of (date_col df) values);
                      ("statistics", statistics_of values max_date min_date)].
Proof.
  unfold series_entry.
  destruct (getitem df term) as [| values [| ? ?]] eqn:Hcol;
    [discriminate | | discriminate].
  destruct (Series.idxmax (index df) values) as [imax | e] eqn:H1; cbn [bind];
    [| discriminate].
  destruct (loc (index df) _ imax) as [max_date | e] eqn:H3; cbn [bind];
    [| discriminate].
  destruct (Series.idxmin (index df) values) as [imin | e] eqn:H2; cbn [bind];
    [| discriminate].
  destruct (loc (index df) _ imin) as [min_date | e] eqn:H4; cbn [bind];
    [| discriminate].
  intros [= <-]. exists values, imax, imin, max_date, min_date. auto 10.
Qed.

Lemma getitem_In (df : DataFrame) (term : string) (values : list Q) :
  getitem df term = [values] -> In (term, values) (cols df).
Proof.
  unfold getitem. intros H.
  assert (Hin : In values (map snd (filter (fun c => String.eqb (fst c) term) (cols df))))
    by (rewrite H; now left).
  apply in_map_iff in Hin as ([t xs] & <- & Hin).
  apply filter_In in Hin as [Hin Heq]. simpl in Heq.
  apply String.eqb_eq in Heq. now subst.
Qed.

Lemma getitem_unique (df : DataFrame) (term : string) (values xs : list Q) :
  getitem df term = [values] -> In (term, xs) (cols df) -> xs = values.
Proof.
  unfold getitem. intros H Hin.
  assert (Hin' : In xs (map snd (filter (fun c => String.eqb (fst c) term) (cols df)))).
  { apply in_map_iff. exists (term, xs). split; [reflexivity |].
    apply filter_In. split; [assumption | apply String.eqb_refl]. }
  rewrite H in Hin'. destruct Hin' as [-> | []]. reflexivity.
Qed.

Lemma terms_of_In (df : DataFrame) (term : string) :
  In term (terms_of df) <-> term <> "日期" /\ In term (map fst (cols df)).
Proof.
  unfold terms_of, columns. rewrite filter_In. simpl.
  destruct (String.eqb_spec term "日期") as [-> |]; simpl.
  - split; [intros [_ [=]] | intros [H _]; contradiction].
  - split.
    + intros [[H | H] _]; [congruence | tauto].
    + intros [_ H]. tauto.
Qed.

(** In a returned report, each maturity of the frame has one column, and
    its entry under [series] is the one computed from that column. *)
Lemma report_series_entry (curve_name : string) (df : DataFrame) (v : value)
      (term : string) (values : list Q) :
  format_bond_curve_data curve_name df = Return v ->
  term <> "日期" ->
  In (term, values) (cols df) ->
  exists imax imin max_date min_date,
    getitem df term = [values]
    /\ Series.idxmax (index df) values = Return imax
    /\ Series.idxmin (index df) values = Return imin
    /\ loc (index df) (map (strftime "%Y%m%d") (date_col df)) imax = Return max_date
    /\ loc (index df) (map (strftime "%Y%m%d") (date_col df)) imin = Return min_date
    /\ value_path v ["series"; term]
       = Some (VDict [("daily_data", daily_data_of (date_col df) values);
                      ("statistics", statistics_of values max_date min_date)]).
Proof.
  intros Hret Hne Hin.
  apply format_returns_inv in Hret as (dmin & dmax & series & _ & _ & Hloop & ->).
  apply series_loop_inv in Hloop as [Hloop _].
  destruct (Hloop term) as (entry & Hentry & Hget).
  { apply terms_of_In. split; [assumption |].
    change term with (fst (term, values)). now apply in_map. }
  apply series_entry_inv in Hentry
    as (values' & imax & imin & max_date & min_date & Hcol & H1 & H2 & H3 & H4 & ->).
  assert (values = values') as <- by (eapply getitem_unique; eassumption).
  exists imax, imin, max_date, min_date.
  repeat (split; [assumption |]).
  unfold report_of. cbn [value_path value_get app dict_get String.eqb Ascii.eqb Bool.eqb].
  now rewrite Hget.
Qed.

(** ** Extrema and the position they are found at *)

Section ArgBest.

Variable better : Q -> Q -> bool.
Variable R : Q -> Q -> Prop.
Hypothesis better_spec : forall y m, better y m = true <-> R y m.
Hypothesis R_irrefl : forall x, ~ R x x.
Hypothesis R_trans : forall x y z, R x y -> R y z -> R x z.
Hypothesis R_over : forall x b q, R x b -> ~ R q b -> R x q.

(** Scanning [xs] after the prefix [pre], with the best value so far at
    [bp]: the scan ends on the first position holding a best value of
    the whole list, and the running best is the value there. *)
Lemma argbest_spec (l : list Q) :
  forall xs pre bp,
    l = pre ++ xs ->
    (bp < List.length pre)%nat ->
    (forall q, (q < List.length pre)%nat -> ~ R (nth q l 0%Q) (nth bp l 0%Q)) ->
    (forall q, (q < bp)%nat -> R (nth bp l 0%Q) (nth q l 0%Q)) ->
    let p := Series.argbest better bp (nth bp l 0%Q) (List.length pre) xs in
    (p < List.length l)%nat
    /\ (forall q, (q < List.length l)%nat -> ~ R (nth q l 0%Q) (nth p l 0%Q))
    /\ (forall q, (q < p)%nat -> R (nth p l 0%Q) (nth q l 0%Q))
    /\ fold_left (fun m y => if better y m then y else m) xs (nth bp l 0%Q)
       = nth p l 0%Q.
Proof.
  induction xs as [| x xs IH]; intros pre bp Hl Hbp Hall Hfirst; simpl.
  - rewrite app_nil_r in Hl. subst l. auto.
  - assert (Hx : nth (List.length pre) l 0%Q = x)
      by (subst l; now rewrite nth_middle).
    assert (Hl' : l = (pre ++ [x]) ++ xs)
      by (now rewrite <- app_assoc).
    assert (Hlen : List.length (pre ++ [x]) = S (List.length pre))
      by (rewrite length_app; simpl; lia).
    destruct (better x (nth bp l 0%Q)) eqn:E.
    + apply better_spec in E.
      specialize (IH (pre ++ [x]) (List.length pre) Hl').
      rewrite Hlen, Hx in IH. apply IH.
      * lia.
      * intros q Hq. assert (q < List.length pre \/ q = List.length pre)%nat
          as [Hq' | ->] by lia.
        -- intros HR. apply (Hall q Hq'). eauto.
        -- rewrite Hx. apply R_irrefl.
      * intros q Hq. eauto.
    + assert (E' : ~ R x (nth bp l 0%Q))
        by (intros HR; apply better_spec in HR; congruence).
      specialize (IH (pre ++ [x]) bp Hl').
      rewrite Hlen in IH. apply IH.
      * lia.
      * intros q Hq. assert (q < List.length pre \/ q = List.length pre)%nat
          as [Hq' | ->] by lia.
        -- auto.
        -- now rewrite Hx.
      * assumption.
Qed.

End ArgBest.

Lemma Qltb_spec (x y : Q) : Series.Qltb x y = true <-> (x < y)%Q.
Proof.
  unfold Series.Qltb. rewrite negb_true_iff.
  split.
  - intros H. apply Qnot_le_lt. intros Hle.
    apply Qle_bool_iff in Hle. congruence.
  - intros Hlt. destruct (Qle_bool y x) eqn:E; [| reflexivity].
    apply Qle_bool_iff in E. exfalso. apply (Qlt_not_le _ _ Hlt E).
Qed.

Lemma argmax_spec (xs : list Q) :
  xs <> [] ->
  exists p, Series.argmax xs = Some p
            /\ Series.max xs = Some (nth p xs 0%Q)
            /\ Spec.first_max_at xs p.
Proof.
  destruct xs as [| x xs]; [congruence | intros _].
  pose proof (argbest_spec (fun y m => Series.Qltb m y) (fun y m => (m < y)%Q)
                (fun y m => Qltb_spec m y)
                (fun x => Qlt_irrefl x)
                (fun x y z Hxy Hyz => Qlt_trans _ _ _ Hyz Hxy)) as H.
  specialize (H (fun x b q (Hxb : (b < x)%Q) (Hqb : ~ (b < q)%Q) =>
                   Qle_lt_trans _ _ _ (Qnot_lt_le _ _ Hqb) Hxb)).
  specialize (H (x :: xs) xs [x] 0%nat eq_refl).
  simpl in H. destruct H as (Hp & Hall & Hfirst & Hmax).
  - lia.
  - intros q Hq. assert (q = 0)%nat as -> by lia. apply Qlt_irrefl.
  - intros q Hq. lia.
  - eexists. split; [reflexivity |]. split.
    + simpl. now rewrite Hmax.
    + repeat split.
      * exact Hp.
      * intros q Hq. apply Qnot_lt_le. now apply Hall.
      * exact Hfirst.
Qed.

Lemma argmin_spec (xs : list Q) :
  xs <> [] ->
  exists p, Series.argmin xs = Some p
            /\ Series.min xs = Some (nth p xs 0%Q)
            /\ Spec.first_min_at xs p.
Proof.
  destruct xs as [| x xs]; [congruence | intros _].
  pose proof (argbest_spec (fun y m => Series.Qltb y m) (fun y m => (y < m)%Q)
                (fun y m => Qltb_spec y m)
                (fun x => Qlt_irrefl x)
                (fun x y z Hxy Hyz => Qlt_trans _ _ _ Hxy Hyz)) as H.
  specialize (H (fun x b q (Hxb : (x < b)%Q) (Hqb : ~ (q < b)%Q) =>
                   Qlt_le_trans _ _ _ Hxb (Qnot_lt_le _ _ Hqb))).
  specialize (H (x :: xs) xs [x] 0%nat eq_refl).
  simpl in H. destruct H as (Hp & Hall & Hfirst & Hmin).
  - lia.
  - intros q Hq. assert (q = 0)%nat as -> by lia. apply Qlt_irrefl.
  - intros q Hq. lia.
  - eexists. split; [reflexivity |]. split.
    + simpl. now rewrite Hmin.
    + repeat split.
      * exact Hp.
      * intros q Hq. apply Qnot_lt_le. now apply Hall.
      * exact Hfirst.
Qed.

(** ** Label lookup *)

Lemma select_mask_label (index : list Z) (cells : list string) (p : nat) :
  NoDup index ->
  (p < List.length index)%nat ->
  List.length cells = List.length index ->
  select_mask (map (Z.eqb (nth p index 0%Z)) index) cells = [nth p cells ""].
Proof.
  revert cells p. induction index as [| i index IH]; intros cells p Hnd Hp Hlen.
  - simpl in Hp. lia.
  - destruct cells as [| c cells]; [discriminate |].
    inversion Hnd as [| ? ? Hni Hnd']; subst. simpl in Hlen.
    destruct p as [| p]; simpl.
    + rewrite Z.eqb_refl. f_equal.
      clear IH Hnd Hp. revert cells Hlen.
      induction index as [| j index IH]; intros cells Hlen; [reflexivity |].
      destruct cells as [| c' cells]; [reflexivity |]. simpl.
      destruct (Z.eqb_spec i j) as [-> |].
      * exfalso. apply Hni. now left.
      * inversion Hnd' as [| ? ? ? Hnd'']; subst.
        apply IH; simpl in *; [tauto | assumption | lia].
    + simpl in Hp.
      destruct (Z.eqb_spec (nth p index 0%Z) i) as [E |].
      * exfalso. apply Hni. rewrite <- E. apply nth_In. lia.
      * apply IH; [assumption | lia | lia].
Qed.

Lemma select_mask_hit (index : list Z) (cells : list string) (p : nat) :
  (p < List.length index)%nat ->
  List.length cells = List.length index ->
  select_mask (map (Z.eqb (nth p index 0%Z)) index) cells <> [].
Proof.
  revert cells p. induction index as [| i index IH]; intros cells p Hp Hlen.
  - simpl in Hp. lia.
  - destruct cells as [| c cells]; [discriminate |]. simpl in Hlen, Hp.
    destruct p as [| p]; simpl.
    + rewrite Z.eqb_refl. discriminate.
    + destruct (Z.eqb (nth p index 0%Z) i); [discriminate |].
      apply IH; lia.
Qed.

(** ** When the report is returned *)

Lemma getitem_NoDup (df : DataFrame) (term : string) (values : list Q) :
  NoDup (map fst (cols df)) -> In (term, values) (cols df) ->
  getitem df term = [values].
Proof.
  unfold getitem. induction (cols df) as [| [t xs] cs IH]; simpl; [tauto |].
  intros Hnd Hin. inversion Hnd as [| ? ? Hni Hnd']; subst.
  destruct Hin as [[= -> ->] | Hin].
  - rewrite String.eqb_refl. simpl. f_equal.
    clear IH Hnd Hnd'. induction cs as [| [t' xs'] cs IH]; simpl; [reflexivity |].
    destruct (String.eqb_spec t' term) as [-> |].
    + exfalso. apply Hni. now left.
    + apply IH. simpl in Hni. tauto.
  - destruct (String.eqb_spec t term) as [-> |].
    + exfalso. apply Hni. change term with (fst (term, values)). now apply in_map.
    + auto.
Qed.

Lemma wf_frame_column (df : DataFrame) (term : string) (values : list Q) :
  wf_frame df -> In (term, values) (cols df) ->
  List.length values = List.length (index df).
Proof.
  intros [_ Hcols] Hin. rewrite Forall_forall in Hcols.
  exact (Hcols _ Hin).
Qed.

Lemma series_entry_returns (df : DataFrame) (term : string) (values : list Q) :
  wf_frame df -> index df <> [] -> getitem df term = [values] ->
  exists entry, series_entry df term = Return entry.
Proof.
  intros Hwf Hne Hcol.
  pose proof (wf_frame_column df term values Hwf (getitem_In _ _ _ Hcol)) as Hlen.
  assert (Hvals : values <> []).
  { intros ->. simpl in Hlen. destruct (index df); [congruence | discriminate]. }
  destruct (argmax_spec values Hvals) as (pmax & Hamax & _ & Hpmax & _).
  destruct (argmin_spec values Hvals) as (pmin & Hamin & _ & Hpmin & _).
  assert (Hdates : List.length (map (strftime "%Y%m%d") (date_col df))
                   = List.length (index df))
    by (rewrite length_map; apply Hwf).
  unfold series_entry, Series.idxmax, Series.idxmin.
  rewrite Hcol, Hamax, Hamin. cbn [bind]. unfold loc.
  pose proof (select_mask_hit (index df) _ pmax ltac:(lia) Hdates) as H1.
  pose proof (select_mask_hit (index df) _ pmin ltac:(lia) Hdates) as H2.
  destruct (select_mask (map (Z.eqb (nth pmax (index df) 0%Z)) (index df)) _)
    as [| c1 [| ? ?]]; [congruence | |];
  destruct (select_mask (map (Z.eqb (nth pmin (index df) 0%Z)) (index df)) _)
    as [| c2 [| ? ?]]; try congruence; cbn [bind]; eauto.
Qed.

Lemma series_loop_returns (df : DataFrame) (terms : list string) (s0 : dict) :
  (forall term, In term terms -> exists entry, series_entry df term = Return entry) ->
  exists s, series_loop df terms s0 = Return s.
Proof.
  revert s0. induction terms as [| t terms IH]; intros s0 H; unfold series_loop; simpl.
  - eauto.
  - destruct (H t) as [entry ->]; [now left |]. cbn [bind].
    apply IH. intros term Hin. apply H. now right.
Qed.

(** A non-empty frame with distinct column labels always gets a report. *)
Lemma format_returns (curve_name : string) (df : DataFrame) :
  wf_frame df -> index df <> [] -> NoDup (map fst (cols df)) ->
  exists v, format_bond_curve_data curve_name df = Return v.
Proof.
  intros Hwf Hne Hnd. rewrite format_bond_curve_data_eq.
  assert (Hdates : date_col df <> []).
  { destruct Hwf as [Hlen _]. intros E. rewrite E in Hlen.
    destruct (index df); [congruence | discriminate]. }
  destruct (date_col df) as [| d ds] eqn:Ed; [congruence |].
  cbn [ts_min ts_max strftime_scalar bind].
  destruct (series_loop_returns df (terms_of df) []) as [s ->].
  - intros term Hin. apply terms_of_In in Hin as [_ Hin].
    apply in_map_iff in Hin as ([t xs] & <- & Hin). simpl.
    apply (series_entry_returns df t xs); auto using getitem_NoDup.
  - cbn [bind]. eauto.
Qed.

Lemma terms_of_eq (df : DataFrame) :
  terms_of df
  = filter (fun col => negb (String.eqb col "日期")) (map fst (cols df)).
Proof.
  unfold terms_of, columns. cbn [filter]. now rewrite String.eqb_refl.
Qed.

Lemma getitem_length (df : DataFrame) (term : string) :
  List.length (getitem df term) = count_occ string_dec (map fst (cols df)) term.
Proof.
  unfold getitem. induction (cols df) as [| [t xs] cs IH]; [reflexivity |].
  cbn [filter map fst count_occ].
  destruct (String.eqb_spec t term), (string_dec t term); try contradiction;
    cbn [map List.length]; now rewrite IH.
Qed.

Lemma count_occ_filter_le (g : string -> bool) (l : list string) (x : string) :
  (count_occ string_dec (filter g l) x <= count_occ string_dec l x)%nat.
Proof.
  induction l as [| y l IH]; [reflexivity |].
  cbn [filter count_occ]. destruct (g y); cbn [count_occ];
    destruct (string_dec y x); lia.
Qed.

(** A report is returned only for a frame with rows whose maturities
    have one column each. *)
Lemma format_returns_distinct (curve_name : string) (df : DataFrame) (v : value) :
  format_bond_curve_data curve_name df = Return v ->
  date_col df <> [] /\ NoDup (terms_of df).
Proof.
  intros Hret.
  apply format_returns_inv in Hret as (dmin & dmax & series & Hmin & _ & Hloop & _).
  split.
  - intros E. rewrite E in Hmin. discriminate.
  - apply series_loop_inv in Hloop as [Hloop _].
    apply (NoDup_count_occ string_dec). intros term.
    destruct (in_dec string_dec term (terms_of df)) as [Hin | Hout].
    + destruct (Hloop term Hin) as (entry & He & _).
      apply series_entry_inv in He as (values & _ & _ & _ & _ & Hc & _).
      pose proof (getitem_length df term) as Hlen. rewrite Hc in Hlen.
      rewrite terms_of_eq.
      pose proof (count_occ_filter_le (fun col => negb (String.eqb col "日期"))
                    (map fst (cols df)) term).
      simpl in Hlen. lia.
    + apply (count_occ_not_In string_dec) in Hout. lia.
Qed.

(** ** The shape of the report *)

Lemma value_path_app (v : value) (ks1 ks2 : list string) :
  value_path v (ks1 ++ ks2)
  = match value_path v ks1 with
    | Some v' => value_path v' ks2
    | None => None
    end.
Proof.
  revert v. induction ks1 as [| k ks1 IH]; intros v; simpl; [reflexivity |].
  destruct (value_get v k); [apply IH | reflexivity].
Qed.

(** C9. Whatever the curve and the data, a returned report carries
    [metadata.currency = "CNY"]. *)
Theorem currency_is_CNY (curve_name : string) (df : DataFrame) (v : value) :
  format_bond_curve_data curve_name df = Return v ->
  value_path v ["metadata"; "currency"] = Some (VStr "CNY").
Proof.
  intros Hret.
  apply format_returns_inv in Hret as (dmin & dmax & series & _ & _ & _ & ->).
  reflexivity.
Qed.

Lemma currency_is_CNY_witness :
  format_bond_curve_data "中债国债收益率曲线" example_frame
  = Return (returned (format_bond_curve_data "中债国债收益率曲线" example_frame))
  /\ value_path (returned (format_bond_curve_data "中债国债收益率曲线" example_frame))
                ["metadata"; "currency"]
     = Some (VStr "CNY").
Proof.
  split.
  - vm_compute. reflexivity.
  - apply (currency_is_CNY "中债国债收益率曲线" example_frame).
    vm_compute. reflexivity.
Defined.

(** C3. A returned report has the key [analysis] exactly when the frame
    has more than one maturity: with one maturity the key is absent, with
    two or more it holds a dict whose only key, [correlation], holds the
    mapping of coefficients. *)
Theorem analysis_iff_several_maturities (curve_name : string) (df : DataFrame)
        (v : value) :
  format_bond_curve_data curve_name df = Return v ->
  (value_get v "analysis" <> None <-> (1 < List.length (terms_of df))%nat)
  /\ (List.length (terms_of df) = 1%nat -> value_get v "analysis" = None)
  /\ ((2 <= List.length (terms_of df))%nat ->
      exists correlation,
        value_get v "analysis" = Some (VDict [("correlation", VDict correlation)])).
Proof.
  intros Hret.
  apply format_returns_inv in Hret as (dmin & dmax & series & _ & _ & _ & ->).
  unfold report_of.
  destruct (Nat.ltb_spec 1 (List.length (terms_of df))) as [Hn | Hn];
    cbn [value_get app dict_get String.eqb Ascii.eqb Bool.eqb].
  - split; [| split].
    + split; [intros _; exact Hn | discriminate].
    + lia.
    + intros _. eauto.
  - split; [| split].
    + split; [congruence | lia].
    + reflexivity.
    + lia.
Qed.

Lemma analysis_iff_several_maturities_witness :
  format_bond_curve_data "c" tie_frame
  = Return (returned (format_bond_curve_data "c" tie_frame))
  /\ value_get (returned (format_bond_curve_data "c" example_frame)) "analysis" = None
  /\ exists correlation,
       value_get (returned (format_bond_curve_data "c" tie_frame)) "analysis"
       = Some (VDict [("correlation", VDict correlation)]).
Proof.
  split; [vm_compute; reflexivity |]. split.
  - apply (analysis_iff_several_maturities "c" example_frame);
      vm_compute; reflexivity.
  - apply (analysis_iff_several_maturities "c" tie_frame).
    + vm_compute. reflexivity.
    + vm_compute. lia.
Defined.

(** ** Dates *)

Lemma ts_ltb_true (a b : Timestamp) :
  ts_ltb a b = true <->
  (year a < year b
   \/ (year a = year b
       /\ (month a < month b \/ (month a = month b /\ day a < day b))))%nat.
Proof.
  unfold ts_ltb.
  rewrite !orb_true_iff, !andb_true_iff, !orb_true_iff, !andb_true_iff,
    !Nat.ltb_lt, !Nat.eqb_eq.
  reflexivity.
Qed.

Lemma ts_ltb_false (a b : Timestamp) :
  ts_ltb a b = false <->
  ~ (year a < year b
     \/ (year a = year b
         /\ (month a < month b \/ (month a = month b /\ day a < day b))))%nat.
Proof.
  rewrite <- ts_ltb_true. destruct (ts_ltb a b); split; congruence.
Qed.

Ltac ts_order :=
  unfold ts_le in *;
  repeat match goal with
         | H : ts_ltb _ _ = true |- _ => apply ts_ltb_true in H
         | H : ts_ltb _ _ = false |- _ => apply ts_ltb_false in H
         | |- ts_ltb _ _ = true => apply ts_ltb_true
         | |- ts_ltb _ _ = false => apply ts_ltb_false
         end;
  lia.

Lemma ts_min_spec (l : list Timestamp) (m : Timestamp) :
  ts_min l = Some m -> In m l /\ forall d, In d l -> ts_le m d.
Proof.
  destruct l as [| t l]; simpl; [discriminate |]. intros [= <-].
  assert (H : forall seen m0,
             (In m0 seen /\ forall d, In d seen -> ts_le m0 d) ->
             let m := fold_left (fun m x => if ts_ltb x m then x else m) l m0 in
             In m (seen ++ l) /\ forall d, In d (seen ++ l) -> ts_le m d).
  { induction l as [| x l IH]; intros seen m0 [Hin Hle]; simpl.
    - rewrite app_nil_r. auto.
    - replace (seen ++ x :: l) with ((seen ++ [x]) ++ l)
        by (now rewrite <- app_assoc).
      apply IH. destruct (ts_ltb x m0) eqn:E.
      + split; [apply in_or_app; right; now left |].
        intros d Hd. apply in_app_or in Hd as [Hd | [<- | []]].
        * specialize (Hle d Hd). ts_order.
        * ts_order.
      + split; [apply in_or_app; now left |].
        intros d Hd. apply in_app_or in Hd as [Hd | [<- | []]].
        * auto.
        * ts_order. }
  apply (H [t] t). split; [now left |].
  intros d [<- | []]. ts_order.
Qed.

Lemma ts_max_spec (l : list Timestamp) (m : Timestamp) :
  ts_max l = Some m -> In m l /\ forall d, In d l -> ts_le d m.
Proof.
  destruct l as [| t l]; simpl; [discriminate |]. intros [= <-].
  assert (H : forall seen m0,
             (In m0 seen /\ forall d, In d seen -> ts_le d m0) ->
             let m := fold_left (fun m x => if ts_ltb m x then x else m) l m0 in
             In m (seen ++ l) /\ forall d, In d (seen ++ l) -> ts_le d m).
  { induction l as [| x l IH]; intros seen m0 [Hin Hle]; simpl.
    - rewrite app_nil_r. auto.
    - replace (seen ++ x :: l) with ((seen ++ [x]) ++ l)
        by (now rewrite <- app_assoc).
      apply IH. destruct (ts_ltb m0 x) eqn:E.
      + split; [apply in_or_app; right; now left |].
        intros d Hd. apply in_app_or in Hd as [Hd | [<- | []]].
        * specialize (Hle d Hd). ts_order.
        * ts_order.
      + split; [apply in_or_app; now left |].
        intros d Hd. apply in_app_or in Hd as [Hd | [<- | []]].
        * auto.
        * ts_order. }
  apply (H [t] t). split; [now left |].
  intros d [<- | []]. ts_order.
Qed.

(** The two formats: ten characters with hyphens, eight without. *)
Lemma strftime_dashed (d : Timestamp) :
  strftime "%Y-%m-%d" d
  = (fmt4 (year d) ++ "-" ++ fmt2 (month d) ++ "-" ++ fmt2 (day d))%string.
Proof. reflexivity. Qed.

Lemma strftime_compact (d : Timestamp) :
  strftime "%Y%m%d" d = (fmt4 (year d) ++ fmt2 (month d) ++ fmt2 (day d))%string.
Proof. reflexivity. Qed.

Lemma strftime_lengths (d : Timestamp) :
  String.length (strftime "%Y-%m-%d" d) = 10%nat
  /\ String.length (strftime "%Y%m%d" d) = 8%nat.
Proof. split; reflexivity. Qed.

Lemma combine_map_l {A B C : Type} (f : A -> B) (l : list A) (l' : list C) :
  combine (map f l) l' = map (fun p => (f (fst p), snd p)) (combine l l').
Proof.
  revert l'. induction l as [| a l IH]; intros [| c l']; simpl; try reflexivity.
  now rewrite IH.
Qed.

(** C6. In a returned report, [metadata.time_range] is the list of the
    earliest and the latest date of the table, each printed as
    [YYYY-MM-DD]; the entries of every [daily_data] carry the date of
    their row printed as [YYYYMMDD]; the first format gives ten
    characters with two hyphens, the second eight digits, so a date of
    the one kind never equals a date of the other. *)
Theorem time_range_and_daily_dates (curve_name : string) (df : DataFrame) (v : value) :
  format_bond_curve_data curve_name df = Return v ->
  (exists dmin dmax,
      In dmin (date_col df) /\ In dmax (date_col df)
      /\ (forall d, In d (date_col df) -> ts_le dmin d /\ ts_le d dmax)
      /\ value_path v ["metadata"; "time_range"]
         = Some (VList [VStr (strftime "%Y-%m-%d" dmin);
                        VStr (strftime "%Y-%m-%d" dmax)]))
  /\ (forall term values,
         term <> "日期" -> In (term, values) (cols df) ->
         value_path v ["series"; term; "daily_data"]
         = Some (VList
                   (map (fun row =>
                           VDict [("date", VStr (strftime "%Y%m%d" (fst row)));
                                  ("yield", VNum (snd row))])
                        (combine (date_col df) values))))
  /\ (forall d,
         strftime "%Y-%m-%d" d
         = (fmt4 (year d) ++ "-" ++ fmt2 (month d) ++ "-" ++ fmt2 (day d))%string
         /\ strftime "%Y%m%d" d
            = (fmt4 (year d) ++ fmt2 (month d) ++ fmt2 (day d))%string)
  /\ (forall d d', strftime "%Y-%m-%d" d <> strftime "%Y%m%d" d').
Proof.
  intros Hret. split; [| split; [| split]].
  - apply format_returns_inv in Hret as (dmin & dmax & series & Hmin & Hmax & _ & ->).
    apply ts_min_spec in Hmin as [Hmin1 Hmin2].
    apply ts_max_spec in Hmax as [Hmax1 Hmax2].
    exists dmin, dmax. repeat split; auto.
  - intros term values Hne Hin.
    destruct (report_series_entry _ _ _ _ _ Hret Hne Hin)
      as (imax & imin & max_date & min_date & _ & _ & _ & _ & _ & Hpath).
    change ["series"; term; "daily_data"] with (["series"; term] ++ ["daily_data"]).
    rewrite value_path_app, Hpath.
    cbn [value_path value_get dict_get String.eqb Ascii.eqb Bool.eqb].
    unfold daily_data_of. rewrite combine_map_l, map_map. reflexivity.
  - intros d. split; reflexivity.
  - intros d d' E. apply (f_equal String.length) in E.
    destruct (strftime_lengths d) as [E1 _], (strftime_lengths d') as [_ E2].
    congruence.
Qed.

Lemma time_range_and_daily_dates_witness :
  format_bond_curve_data "c" tie_frame
  = Return (returned (format_bond_curve_data "c" tie_frame))
  /\ value_path (returned (format_bond_curve_data "c" tie_frame))
                ["series"; "5年"; "daily_data"]
     = Some (VList
               [VDict [("date", VStr "20250102"); ("yield", VNum (1 # 1))];
                VDict [("date", VStr "20250103"); ("yield", VNum (2 # 1))];
                VDict [("date", VStr "20250106"); ("yield", VNum (4 # 1))]]).
Proof.
  split; [vm_compute; reflexivity |].
  destruct (time_range_and_daily_dates
              "c" tie_frame (returned (format_bond_curve_data "c" tie_frame)))
    as (_ & Hdaily & _); [vm_compute; reflexivity |].
  apply (Hdaily "5年" [1 # 1; 2 # 1; 4 # 1])%Q; [discriminate | simpl; auto].
Defined.

(** ** Extrema of a column *)

Lemma nth_map_strftime (fmt : string) (dates : list Timestamp) (p : nat) (d : Timestamp) :
  nth_error dates p = Some d -> nth p (map (strftime fmt) dates) "" = strftime fmt d.
Proof.
  revert p. induction dates as [| t dates IH]; intros [| p]; simpl;
    try discriminate.
  - now intros [= ->].
  - apply IH.
Qed.

Lemma loc_unique_label (idx : list Z) (dates : list Timestamp) (p : nat) (d : Timestamp) :
  NoDup idx -> List.length dates = List.length idx ->
  nth_error dates p = Some d ->
  loc idx (map (strftime "%Y%m%d") dates) (nth p idx 0%Z)
  = Return (VStr (strftime "%Y%m%d" d)).
Proof.
  intros Hnd Hlen Hd. unfold loc.
  assert (Hp : (p < List.length idx)%nat).
  { rewrite <- Hlen. apply nth_error_Some. congruence. }
  rewrite select_mask_label; [| assumption | assumption | now rewrite length_map].
  now rewrite (nth_map_strftime _ _ _ _ Hd).
Qed.

(** C2. For a column of a frame whose row labels are distinct, the
    report gives as [max] (as [min]) the largest (smallest) value of the
    column and the date, printed as [YYYYMMDD], of the first row that
    holds it: every earlier row is strictly below (above) it. *)
Theorem extrema_first_occurrence (curve_name : string) (df : DataFrame) (v : value)
        (term : string) (values : list Q) :
  format_bond_curve_data curve_name df = Return v ->
  wf_frame df ->
  NoDup (index df) ->
  term <> "日期" ->
  In (term, values) (cols df) ->
  values <> []
  /\ exists pmax pmin dmax dmin,
      Spec.first_max_at values pmax
      /\ nth_error (date_col df) pmax = Some dmax
      /\ Spec.first_min_at values pmin
      /\ nth_error (date_col df) pmin = Some dmin
      /\ value_path v ["series"; term; "statistics"; "max"]
         = Some (VDict [("value", VNum (nth pmax values 0%Q));
                        ("date", VStr (strftime "%Y%m%d" dmax))])
      /\ value_path v ["series"; term; "statistics"; "min"]
         = Some (VDict [("value", VNum (nth pmin values 0%Q));
                        ("date", VStr (strftime "%Y%m%d" dmin))]).
Proof.
  intros Hret Hwf Hnd Hne Hin.
  destruct (report_series_entry _ _ _ _ _ Hret Hne Hin)
    as (imax & imin & max_date & min_date & _ & Himax & Himin & Hlmax & Hlmin & Hpath).
  pose proof (wf_frame_column _ _ _ Hwf Hin) as Hlen.
  destruct Hwf as [Hdates _].
  assert (Hvals : values <> []).
  { intros ->. discriminate Himax. }
  split; [exact Hvals |].
  destruct (argmax_spec values Hvals) as (pmax & Hamax & Hmax & Hfmax).
  destruct (argmin_spec values Hvals) as (pmin & Hamin & Hmin & Hfmin).
  unfold Series.idxmax in Himax. rewrite Hamax in Himax. injection Himax as <-.
  unfold Series.idxmin in Himin. rewrite Hamin in Himin. injection Himin as <-.
  destruct (nth_error (date_col df) pmax) as [dmax |] eqn:Edmax.
  2:{ apply nth_error_None in Edmax. destruct Hfmax as [? _]. lia. }
  destruct (nth_error (date_col df) pmin) as [dmin |] eqn:Edmin.
  2:{ apply nth_error_None in Edmin. destruct Hfmin as [? _]. lia. }
  rewrite (loc_unique_label _ _ _ _ Hnd Hdates Edmax) in Hlmax.
  rewrite (loc_unique_label _ _ _ _ Hnd Hdates Edmin) in Hlmin.
  injection Hlmax as <-. injection Hlmin as <-.
  exists pmax, pmin, dmax, dmin.
  repeat (split; [assumption || reflexivity |]).
  change ["series"; term; "statistics"; "max"]
    with (["series"; term] ++ ["statistics"; "max"]).
  change ["series"; term; "statistics"; "min"]
    with (["series"; term] ++ ["statistics"; "min"]).
  rewrite !value_path_app, Hpath. unfold statistics_of. rewrite Hmax, Hmin.
  split; reflexivity.
Qed.

(** On the column [5, 3, 5] the maximum is reported at the first row. *)
Lemma extrema_first_occurrence_witness :
  wf_frame tie_frame
  /\ NoDup (index tie_frame)
  /\ value_path (returned (format_bond_curve_data "c" tie_frame))
                ["series"; "3年"; "statistics"; "max"]
     = Some (VDict [("value", VNum (5 # 1)); ("date", VStr "20250102")]).
Proof.
  assert (Hwf : wf_frame tie_frame).
  { split; [reflexivity | repeat constructor]. }
  assert (Hnd : NoDup (index tie_frame)).
  { repeat (constructor; [simpl; intuition congruence |]). constructor. }
  split; [exact Hwf |]. split; [exact Hnd |].
  destruct (extrema_first_occurrence
              "c" tie_frame (returned (format_bond_curve_data "c" tie_frame))
              "3年" [5 # 1; 3 # 1; 5 # 1]%Q)
    as (_ & pmax & pmin & dmax & dmin & Hfmax & Hdmax & _ & _ & Hpath & _).
  - vm_compute. reflexivity.
  - exact Hwf.
  - exact Hnd.
  - discriminate.
  - simpl. auto.
  - rewrite Hpath. destruct Hfmax as (Hlt & _ & Hfirst).
    destruct pmax as [| [| [| pmax]]].
    + injection Hdmax as <-. reflexivity.
    + specialize (Hfirst 0%nat ltac:(lia)). vm_compute in Hfirst. discriminate.
    + specialize (Hfirst 0%nat ltac:(lia)). vm_compute in Hfirst. discriminate.
    + simpl in Hlt. lia.
Defined.

(** ** The tool *)

Lemma mem_In (s : string) (l : list string) : mem s l = true <-> In s l.
Proof.
  unfold mem. rewrite existsb_exists. split.
  - intros (x & Hin & E). apply String.eqb_eq in E. now subst.
  - intros Hin. exists s. split; [assumption | apply String.eqb_refl].
Qed.

Lemma valid_request_asserts (bond_curve_name : string) (term_list : list string) :
  valid_request bond_curve_name term_list ->
  mem bond_curve_name CURVE_NAMES = true
  /\ forallb (fun term => mem term TERMS) term_list = true
  /\ (if String.eqb bond_curve_name "中债中短期票据收益率曲线(AAA)"
      then negb (mem "30年" term_list) else true) = true.
Proof.
  intros (Hname & Hterms & Hcombo). split; [| split].
  - now apply mem_In.
  - apply forallb_forall. intros term Hin. apply mem_In. auto.
  - destruct (String.eqb_spec bond_curve_name "中债中短期票据收益率曲线(AAA)");
      [| reflexivity].
    destruct (mem "30年" term_list) eqn:E; [| reflexivity].
    apply mem_In in E. tauto.
Qed.

(** Past the assertions the tool always returns: the provider is called
    once, the core at most once, and whatever is raised on the way is
    turned into an error report. *)
Lemma get_china_bond_curve_valid (ak : provider) (bond_curve_name : string)
      (term_list : term_arg) (start_date end_date : date_arg) (tr : list event) :
  valid_request bond_curve_name (terms_of_arg term_list) ->
  exists tr',
    get_china_bond_curve ak bond_curve_name term_list start_date end_date tr
    = (Return (answer ak bond_curve_name (terms_of_arg term_list)
                      (str_date start_date) (str_date end_date)),
       tr ++ CallProvider (str_date start_date) (str_date end_date) :: tr').
Proof.
  intros Hvalid. apply valid_request_asserts in Hvalid as (H1 & H2 & H3).
  unfold get_china_bond_curve. fold (terms_of_arg term_list).
  unfold io_bind at 1. unfold assert at 1. rewrite H1. unfold io_ret at 1.
  unfold io_bind at 1. unfold assert at 1. rewrite H2. unfold io_ret at 1.
  unfold io_bind at 1. unfold assert at 1. rewrite H3. unfold io_ret at 1.
  unfold try_except, io_bind, io_emit, io_lift, io_ret, answer.
  destruct (ak (str_date start_date) (str_date end_date)) as [raw | e].
  2:{ exists []. reflexivity. }
  destruct (p_index raw) as [| i idx].
  { exists []. reflexivity. }
  destruct (select_curve raw bond_curve_name (terms_of_arg term_list)) as [df | e].
  2:{ exists []. reflexivity. }
  exists [CallCore bond_curve_name]. rewrite <- app_assoc.
  destruct (format_bond_curve_data bond_curve_name df); reflexivity.
Qed.

Lemma select_curve_terms (raw : ProviderFrame) (bond_curve_name : string)
      (term_list : list string) (df : DataFrame) :
  select_curve raw bond_curve_name term_list = Return df ->
  forall term, In term term_list -> In term (map fst (cols df)).
Proof.
  unfold select_curve.
  destruct (filter _ term_list) as [| ? ?] eqn:Hmissing; [| discriminate].
  intros [= <-] term Hin. cbn [cols].
  assert (Hhas : existsb (fun c => String.eqb (fst c) term) (p_cols raw) = true).
  { destruct (existsb (fun c => String.eqb (fst c) term) (p_cols raw)) eqn:E;
      [reflexivity |].
    assert (Hf : In term (filter (fun lbl =>
                 negb (existsb (fun c => String.eqb (fst c) lbl) (p_cols raw)))
                 term_list))
      by (apply filter_In; split; [assumption | now rewrite E]).
    rewrite Hmissing in Hf. destruct Hf. }
  apply existsb_exists in Hhas as ([t xs] & Hc & E). simpl in E.
  apply String.eqb_eq in E. subst t.
  apply in_map_iff.
  exists (term, select_mask (map (fun c => String.eqb c bond_curve_name) (p_curve raw)) xs).
  split; [reflexivity |].
  apply in_flat_map. exists term. split; [assumption |].
  apply in_map_iff. exists (term, xs). split; [reflexivity |].
  apply filter_In. split; [assumption | apply String.eqb_refl].
Qed.

Lemma format_complete (curve_name : string) (df : DataFrame) (v : value)
      (terms : list string) :
  format_bond_curve_data curve_name df = Return v ->
  (forall term, In term terms -> term <> "日期" /\ In term (map fst (cols df))) ->
  complete_report v terms.
Proof.
  intros Hret Hterms. split; [| split].
  - apply format_returns_inv in Hret as (dmin & dmax & series & _ & _ & _ & ->).
    unfold report_of.
    destruct (Nat.ltb 1 (List.length (terms_of df))); reflexivity.
  - apply format_returns_inv in Hret as (dmin & dmax & series & _ & _ & _ & ->).
    eexists. reflexivity.
  - intros term Hin. destruct (Hterms term Hin) as [Hne Hcol].
    apply in_map_iff in Hcol as ([t values] & E & Hcol). simpl in E. subst t.
    destruct (report_series_entry _ _ _ _ _ Hret Hne Hcol)
      as (imax & imin & max_date & min_date & _ & _ & _ & _ & _ & Hpath).
    rewrite Hpath. unfold daily_data_of, statistics_of.
    do 2 eexists. split; reflexivity.
Qed.

Lemma TERMS_not_date (term : string) : In term TERMS -> term <> "日期".
Proof.
  intros Hin ->. simpl in Hin.
  repeat (destruct Hin as [Hin | Hin]; [discriminate |]). exact Hin.
Qed.

(** C8. A request that fails one of the three checks -- an unknown curve
    name, an unknown maturity, or the curve
    [中债中短期票据收益率曲线(AAA)] together with [30年] -- ends in
    [AssertionError]: the exception leaves the tool (no error report is
    returned), and the trace is untouched, so neither the provider nor
    the core was called. *)
Theorem invalid_request_asserts (ak : provider) (bond_curve_name : string)
        (term_list : term_arg) (start_date end_date : date_arg) (tr : list event) :
  (~ In bond_curve_name CURVE_NAMES
   \/ (exists term, In term (terms_of_arg term_list) /\ ~ In term TERMS)
   \/ (bond_curve_name = "中债中短期票据收益率曲线(AAA)"
       /\ In "30年" (terms_of_arg term_list))) ->
  get_china_bond_curve ak bond_curve_name term_list start_date end_date tr
  = (Raise AssertionError, tr).
Proof.
  intros Hbad. unfold get_china_bond_curve. fold (terms_of_arg term_list).
  unfold io_bind at 1. unfold assert at 1.
  destruct (mem bond_curve_name CURVE_NAMES) eqn:E1; [| reflexivity].
  unfold io_ret at 1. unfold io_bind at 1. unfold assert at 1.
  destruct (forallb (fun term => mem term TERMS) (terms_of_arg term_list)) eqn:E2;
    [| reflexivity].
  unfold io_ret at 1. unfold io_bind at 1. unfold assert at 1.
  destruct (if String.eqb bond_curve_name "中债中短期票据收益率曲线(AAA)"
            then negb (mem "30年" (terms_of_arg term_list)) else true) eqn:E3;
    [| reflexivity].
  exfalso. apply mem_In in E1. rewrite forallb_forall in E2.
  destruct Hbad as [H | [(term & Hin & H) | [-> H]]].
  - contradiction.
  - apply H, mem_In, E2, Hin.
  - rewrite String.eqb_refl in E3. apply mem_In in H. rewrite H in E3. discriminate.
Qed.

Lemma invalid_request_asserts_witness :
  get_china_bond_curve sample_provider "中债中短期票据收益率曲线(AAA)"
                       (TermList ["10年"; "30年"]) (DateInt 20250101)
                       (DateStr "20250105") []
  = (Raise AssertionError, []).
Proof.
  apply (invalid_request_asserts sample_provider).
  right. right. split; [reflexivity | simpl; auto].
Defined.

Lemma error_report_keys (msg : string) :
  value_get (error_report msg) "error" = Some (VStr msg)
  /\ value_get (error_report msg) "series" = None
  /\ value_get (error_report msg) "metadata" = None
  /\ value_get (error_report msg) "analysis" = None.
Proof. repeat split. Qed.

(** C7. Once the request has passed the assertions the tool always
    returns a value, never an exception, and that value is either the
    flat dict [{"error": msg}] -- its only key is [error], holding the
    message; it has no [series], [metadata] or [analysis] key -- or a
    report in which every requested maturity has its daily data and its
    full statistics block, and which has no [error] key.  Each failure
    gives the error dict with its message: the provider raising, the
    provider returning no row, a requested column missing, and the core
    raising. *)
Theorem failures_become_error_reports (ak : provider) (bond_curve_name : string)
        (term_list : term_arg) (start_date end_date : date_arg) (tr : list event) :
  valid_request bond_curve_name (terms_of_arg term_list) ->
  let terms := terms_of_arg term_list in
  let failed e :=
    VDict [("error", VStr ("Failed to retrieve data: " ++ str_exn e)%string)] in
  exists v tr',
    get_china_bond_curve ak bond_curve_name term_list start_date end_date tr
    = (Return v, tr')
    /\ ((exists msg,
            v = VDict [("error", VStr msg)]
            /\ value_get v "error" = Some (VStr msg)
            /\ value_get v "series" = None /\ value_get v "metadata" = None
            /\ value_get v "analysis" = None)
        \/ complete_report v terms)
    /\ (forall e,
           ak (str_date start_date) (str_date end_date) = Raise e -> v = failed e)
    /\ (forall raw,
           ak (str_date start_date) (str_date end_date) = Return raw ->
           (p_index raw = [] ->
            v = VDict
                  [("error",
                    VStr ("No data available for the specified date range: "
                          ++ str_date start_date ++ " to " ++ str_date end_date)%string)])
           /\ (p_index raw <> [] ->
               (forall e,
                   select_curve raw bond_curve_name terms = Raise e -> v = failed e)
               /\ (forall df e,
                      select_curve raw bond_curve_name terms = Return df ->
                      format_bond_curve_data bond_curve_name df = Raise e ->
                      v = failed e)
               /\ (forall df v',
                      select_curve raw bond_curve_name terms = Return df ->
                      format_bond_curve_data bond_curve_name df = Return v' ->
                      v = v' /\ complete_report v terms))).
Proof.
  intros Hvalid terms failed.
  destruct (get_china_bond_curve_valid ak _ term_list start_date end_date tr Hvalid)
    as [tr' Hrun].
  eexists. eexists. split; [exact Hrun |].
  fold terms. unfold answer, error_report.
  destruct (ak (str_date start_date) (str_date end_date)) as [raw | e0].
  2:{ split; [left; exists ("Failed to retrieve data: " ++ str_exn e0)%string;
               repeat split |].
      split; [now intros e [= ->] | discriminate]. }
  destruct (p_index raw) as [| i idx] eqn:Hidx.
  { split; [left; eexists; repeat split |].
    split; [discriminate |]. intros ? [= <-].
    split; [reflexivity | congruence]. }
  destruct (select_curve raw bond_curve_name terms) as [df | e0] eqn:Hsel.
  2:{ split; [left; exists ("Failed to retrieve data: " ++ str_exn e0)%string;
               repeat split |].
      split; [discriminate |]. intros ? [= <-]. split; [congruence |].
      intros _. rewrite Hsel.
      split; [now intros e [= ->] | split; discriminate]. }
  destruct (format_bond_curve_data bond_curve_name df) as [v | e0] eqn:Hfmt.
  2:{ split; [left; exists ("Failed to retrieve data: " ++ str_exn e0)%string;
               repeat split |].
      split; [discriminate |]. intros ? [= <-]. split; [congruence |].
      intros _. rewrite Hsel. split; [discriminate |]. split.
      - intros df' e [= <-] Hr. rewrite Hfmt in Hr. now injection Hr as ->.
      - intros df' v' [= <-] Hr. rewrite Hfmt in Hr. discriminate. }
  assert (Hcomplete : complete_report v terms).
  { apply (format_complete _ _ _ _ Hfmt).
    intros term Hin. split.
    - apply TERMS_not_date. destruct Hvalid as (_ & Hterms & _). auto.
    - eapply select_curve_terms; eassumption. }
  split; [right; exact Hcomplete |].
  split; [discriminate |]. intros ? [= <-]. split; [congruence |].
  intros _. rewrite Hsel. split; [discriminate |]. split.
  - intros df' e [= <-] Hr. rewrite Hfmt in Hr. discriminate.
  - intros df' v' [= <-] Hr. rewrite Hfmt in Hr. injection Hr as <-. auto.
Qed.

Lemma sample_request_valid (term : string) :
  In term TERMS -> valid_request "中债国债收益率曲线" [term].
Proof.
  intros Hin. split; [simpl; auto |]. split.
  - intros t [<- | []]. exact Hin.
  - intros [E _]. discriminate E.
Qed.

(** With a provider that raises, the tool returns the error dict. *)
Lemma failures_become_error_reports_witness :
  valid_request "中债国债收益率曲线" ["10年"]
  /\ exists tr',
      get_china_bond_curve failing_provider "中债国债收益率曲线" (TermStr "10年")
                           (DateInt 20250101) (DateInt 20250105) []
      = (Return (VDict [("error", VStr "Failed to retrieve data: connection refused")]),
         tr').
Proof.
  assert (Hvalid : valid_request "中债国债收益率曲线" ["10年"])
    by (apply sample_request_valid; simpl; auto 10).
  split; [exact Hvalid |].
  destruct (failures_become_error_reports
              failing_provider "中债国债收益率曲线" (TermStr "10年")
              (DateInt 20250101) (DateInt 20250105) [] Hvalid)
    as (v & tr' & Hrun & _ & Hraise & _).
  exists tr'. rewrite Hrun.
  rewrite (Hraise (ProviderError "connection refused") eq_refl). reflexivity.
Defined.

(** ** No row for the requested curve *)





(** ** Pairs of maturities and their keys *)

Lemma map_nth_seq {A : Type} (l : list A) (d : A) (s : nat) (pre : list A) :
  List.length pre = s ->
  map (fun j => nth j (pre ++ l) d) (seq s (List.length l)) = l.
Proof.
  revert pre s. induction l as [| a l IH]; intros pre s Hs; simpl; [reflexivity |].
  f_equal.
  - subst s. apply nth_middle.
  - replace (pre ++ a :: l) with ((pre ++ [a]) ++ l) by (now rewrite <- app_assoc).
    apply IH. rewrite length_app. simpl. lia.
Qed.

Lemma index_pairs_S (n : nat) :
  index_pairs (S n)
  = map (pair 0%nat) (seq 1 n)
    ++ map (fun ij => (S (fst ij), S (snd ij))) (index_pairs n).
Proof.
  unfold index_pairs. cbn [seq flat_map]. f_equal.
  - simpl. now rewrite Nat.sub_0_r.
  - rewrite <- seq_shift, flat_map_concat_map, map_map, <- flat_map_concat_map.
    generalize (seq 0 n) as is_. intros is_.
    induction is_ as [| i is_ IH]; [reflexivity |].
    cbn [flat_map]. rewrite map_app, IH. f_equal.
    rewrite map_map. cbn [fst snd].
    replace (S n - (S i + 1))%nat with (n - (i + 1))%nat by lia.
    replace (S i + 1)%nat with (S (i + 1)) by lia.
    now rewrite <- seq_shift, map_map.
Qed.

(** The loops of lines 57-58 visit the ordered pairs of maturities. *)
Lemma index_pairs_ordered {A : Type} (l : list A) (d : A) :
  map (fun ij => (nth (fst ij) l d, nth (snd ij) l d)) (index_pairs (List.length l))
  = ordered_pairs l.
Proof.
  induction l as [| a l IH]; [reflexivity |].
  cbn [List.length ordered_pairs]. rewrite index_pairs_S, map_app, !map_map.
  cbn [fst snd nth]. rewrite IH. f_equal.
  rewrite <- (map_map (fun j => nth j (a :: l) d) (pair a)).
  f_equal. exact (map_nth_seq l d 1 [a] eq_refl).
Qed.

Lemma in_ordered_pairs {A : Type} (l : list A) (x y : A) :
  In (x, y) (ordered_pairs l) -> In x l /\ In y l.
Proof.
  induction l as [| a l IH]; simpl; [tauto |].
  intros H. apply in_app_or in H as [H | H].
  - apply in_map_iff in H as (b & [= <- <-] & Hb). auto.
  - apply IH in H. tauto.
Qed.

Lemma ordered_pairs_NoDup {A : Type} (l : list A) :
  NoDup l -> NoDup (ordered_pairs l).
Proof.
  induction l as [| a l IH]; intros Hnd; simpl; [constructor |].
  inversion Hnd as [| ? ? Hni Hnd']; subst.
  apply NoDup_app.
  - apply NoDup_map_NoDup_ForallPairs; [| assumption].
    intros x y _ _ [= ->]. reflexivity.
  - auto.
  - intros [x y] H1 H2. apply in_map_iff in H1 as (b & [= <- <-] & _).
    apply in_ordered_pairs in H2. tauto.
Qed.

(** With distinct maturities a pair is listed in one direction only, and
    never with itself. *)
Lemma ordered_pairs_asym {A : Type} (l : list A) (x y : A) :
  NoDup l -> In (x, y) (ordered_pairs l) -> ~ In (y, x) (ordered_pairs l).
Proof.
  induction l as [| a l IH]; intros Hnd; simpl; [tauto |].
  inversion Hnd as [| ? ? Hni Hnd']; subst.
  intros H1 H2. apply in_app_or in H1. apply in_app_or in H2.
  destruct H1 as [H1 | H1], H2 as [H2 | H2].
  - apply in_map_iff in H1 as (b & [= <- <-] & Hb).
    apply in_map_iff in H2 as (b' & [= <- _] & _). contradiction.
  - apply in_map_iff in H1 as (b & [= <- <-] & Hb).
    apply in_ordered_pairs in H2. tauto.
  - apply in_map_iff in H2 as (b & [= <- <-] & Hb).
    apply in_ordered_pairs in H1. tauto.
  - exact (IH Hnd' H1 H2).
Qed.

Lemma ordered_pairs_irrefl {A : Type} (l : list A) (x : A) :
  NoDup l -> ~ In (x, x) (ordered_pairs l).
Proof.
  intros Hnd H. exact (ordered_pairs_asym l x x Hnd H H).
Qed.

Lemma ordered_pairs_length {A : Type} (l : list A) :
  List.length (ordered_pairs l) = (List.length l * (List.length l - 1) / 2)%nat.
Proof.
  assert (H : (2 * List.length (ordered_pairs l)
               = List.length l * (List.length l - 1))%nat).
  { induction l as [| a l IH]; [reflexivity |].
    cbn [ordered_pairs List.length]. rewrite length_app, length_map. nia. }
  rewrite <- H, Nat.mul_comm. symmetry. apply Nat.div_mul. discriminate.
Qed.

(** *** Keys *)

Lemma string_app_assoc (a b c : string) :
  ((a ++ b) ++ c = a ++ (b ++ c))%string.
Proof.
  induction a as [| x a IH]; simpl; [reflexivity | now rewrite IH].
Qed.

Lemma contains_char_app (ch : ascii) (a b : string) :
  contains_char ch (a ++ b)%string = contains_char ch a || contains_char ch b.
Proof.
  induction a as [| x a IH]; simpl; [reflexivity |].
  now rewrite IH, orb_assoc.
Qed.

Lemma split_at_underscore (s : string) :
  contains_char "_" s = true ->
  exists a b, s = (a ++ "_" ++ b)%string /\ underscore_free a.
Proof.
  induction s as [| x s IH]; simpl; [discriminate |].
  destruct (Ascii.eqb_spec x "_"%char) as [-> | Hx]; simpl.
  - intros _. exists ""%string, s. split; reflexivity.
  - intros H. destruct (IH H) as (a & b & -> & Ha).
    exists (String x a), b. split; [reflexivity |].
    unfold underscore_free. simpl.
    destruct (Ascii.eqb_spec x "_"%char); [contradiction | exact Ha].
Qed.

(** A key determines its pair when the first label has no underscore. *)
Lemma pair_key_inj (a a' b b' : string) :
  underscore_free a -> underscore_free a' ->
  (a ++ "_" ++ b = a' ++ "_" ++ b')%string -> a = a' /\ b = b'.
Proof.
  unfold underscore_free. revert a'.
  induction a as [| x a IH]; intros [| x' a']; simpl.
  - intros _ _ [= ->]. auto.
  - intros _ H [= <- _]. simpl in H. discriminate.
  - intros H _ [= -> _]. simpl in H. discriminate.
  - intros H H' [= -> E].
    apply orb_false_iff in H as [_ H]. apply orb_false_iff in H' as [_ H'].
    destruct (IH a' H H' E) as [-> ->]. auto.
Qed.

(** A key made of two labels without underscore is never [X_X] unless
    the two labels are the same. *)
Lemma pair_key_square (a b x : string) :
  underscore_free a -> underscore_free b ->
  (a ++ "_" ++ b = x ++ "_" ++ x)%string -> a = b.
Proof.
  intros Ha Hb E.
  destruct (contains_char "_" x) eqn:Hx.
  - apply split_at_underscore in Hx as (x1 & x2 & -> & Hx1).
    rewrite string_app_assoc in E.
    apply pair_key_inj in E as [_ ->]; [| assumption | assumption].
    unfold underscore_free in Hb.
    rewrite !contains_char_app in Hb. simpl in Hb.
    rewrite orb_true_r in Hb. discriminate.
  - apply pair_key_inj in E as [-> ->]; auto.
Qed.

Lemma TERMS_underscore_free (term : string) : In term TERMS -> underscore_free term.
Proof.
  intros Hin. simpl in Hin.
  repeat (destruct Hin as [<- | Hin]; [reflexivity |]). destruct Hin.
Qed.

Lemma pair_keys_NoDup (terms : list string) :
  NoDup terms -> Forall underscore_free terms ->
  NoDup (map pair_key (ordered_pairs terms)).
Proof.
  intros Hnd Hfree. rewrite Forall_forall in Hfree.
  apply NoDup_map_NoDup_ForallPairs; [| now apply ordered_pairs_NoDup].
  intros [a b] [a' b'] H1 H2 E. unfold pair_key in E. simpl in E.
  apply in_ordered_pairs in H1 as [Ha _]. apply in_ordered_pairs in H2 as [Ha' _].
  apply pair_key_inj in E as [-> ->]; auto.
Qed.

(** ** The correlation mapping *)

Lemma fold_left_map_list {A B C : Type} (f : A -> C -> A) (g : B -> C)
      (l : list B) (a : A) :
  fold_left f (map g l) a = fold_left (fun a x => f a (g x)) l a.
Proof.
  revert a. induction l as [| x l IH]; intros a; simpl; [reflexivity | apply IH].
Qed.

Lemma correlation_keys_ordered (terms : list string) (cm : matrix) :
  map fst
      (map (fun ij =>
              ((nth (fst ij) terms "" ++ "_" ++ nth (snd ij) terms "")%string,
               VFloat (iloc cm (fst ij) (snd ij))))
           (index_pairs (List.length terms)))
  = map pair_key (ordered_pairs terms).
Proof.
  rewrite <- (index_pairs_ordered terms ""), !map_map. reflexivity.
Qed.

(** With distinct labels free of underscores no key is written twice, so
    the mapping lists the visited pairs in order. *)
Lemma correlation_loop_entries (terms : list string) (cm : matrix) :
  NoDup terms -> Forall underscore_free terms ->
  correlation_loop terms cm []
  = map (fun ij =>
           ((nth (fst ij) terms "" ++ "_" ++ nth (snd ij) terms "")%string,
            VFloat (iloc cm (fst ij) (snd ij))))
        (index_pairs (List.length terms)).
Proof.
  intros Hnd Hfree. unfold correlation_loop.
  pose proof (dict_set_all_fresh
                (map (fun ij =>
                        ((nth (fst ij) terms "" ++ "_" ++ nth (snd ij) terms "")%string,
                         VFloat (iloc cm (fst ij) (snd ij))))
                     (index_pairs (List.length terms))) []) as H.
  cbn [app] in H. rewrite <- H.
  - now rewrite fold_left_map_list.
  - unfold dict_keys. rewrite correlation_keys_ordered.
    now apply pair_keys_NoDup.
Qed.

Lemma report_correlation (curve_name : string) (df : DataFrame) (v : value) :
  format_bond_curve_data curve_name df = Return v ->
  (2 <= List.length (terms_of df))%nat ->
  value_path v ["analysis"; "correlation"]
  = Some (VDict (correlation_loop
                   (terms_of df)
                   (DataFrame_round (DataFrame_corr (getitems df (terms_of df))) 3)
                   [])).
Proof.
  intros Hret Hn.
  apply format_returns_inv in Hret as (dmin & dmax & series & _ & _ & _ & ->).
  unfold report_of.
  destruct (Nat.ltb_spec 1 (List.length (terms_of df))) as [_ | Hlt]; [| lia].
  reflexivity.
Qed.

(** C4. In a report over [n >= 2] maturities taken from the labels the
    tool accepts, the keys of [analysis.correlation] are exactly the keys
    ["A_B"] of the pairs with [A] before [B] in column order, in the
    order the pairs are visited: [n * (n - 1) / 2] keys, no key twice,
    no key ["B_A"] of a reversed pair, and no key of the form ["X_X"]. *)
Theorem correlation_keys (curve_name : string) (df : DataFrame) (v : value) :
  format_bond_curve_data curve_name df = Return v ->
  (2 <= List.length (terms_of df))%nat ->
  (forall term, In term (terms_of df) -> In term TERMS) ->
  exists correlation,
    value_path v ["analysis"; "correlation"] = Some (VDict correlation)
    /\ dict_keys correlation = map pair_key (ordered_pairs (terms_of df))
    /\ List.length correlation
       = (List.length (terms_of df) * (List.length (terms_of df) - 1) / 2)%nat
    /\ NoDup (dict_keys correlation)
    /\ (forall A B,
           In (A, B) (ordered_pairs (terms_of df)) ->
           In (A ++ "_" ++ B)%string (dict_keys correlation)
           /\ ~ In (B ++ "_" ++ A)%string (dict_keys correlation))
    /\ (forall X, ~ In (X ++ "_" ++ X)%string (dict_keys correlation)).
Proof.
  intros Hret Hn Hvalid.
  destruct (format_returns_distinct _ _ _ Hret) as [_ Hnd].
  assert (Hfree : Forall underscore_free (terms_of df)).
  { apply Forall_forall. intros t Ht. apply TERMS_underscore_free. auto. }
  rewrite Forall_forall in Hfree.
  eexists. split; [exact (report_correlation _ _ _ Hret Hn) |].
  rewrite correlation_loop_entries by (try apply Forall_forall; assumption).
  unfold dict_keys. rewrite correlation_keys_ordered.
  split; [reflexivity |]. split.
  { rewrite length_map, <- (ordered_pairs_length (terms_of df)).
    rewrite <- (index_pairs_ordered (terms_of df) "").
    now rewrite length_map. }
  split.
  { apply pair_keys_NoDup; [assumption | now apply Forall_forall]. }
  split.
  - intros A B HAB. split.
    + apply in_map_iff. exists (A, B). split; [reflexivity | assumption].
    + intros Hin. apply in_map_iff in Hin as ([A' B'] & E & Hin').
      unfold pair_key in E. cbn [fst snd] in E.
      destruct (in_ordered_pairs _ _ _ HAB) as [HA HB].
      destruct (in_ordered_pairs _ _ _ Hin') as [HA' HB'].
      apply pair_key_inj in E as [-> ->]; auto.
      exact (ordered_pairs_asym _ _ _ Hnd HAB Hin').
  - intros X Hin. apply in_map_iff in Hin as ([A B] & E & Hin').
    unfold pair_key in E. cbn [fst snd] in E.
    destruct (in_ordered_pairs _ _ _ Hin') as [HA HB].
    apply pair_key_square in E; auto. subst B.
    exact (ordered_pairs_irrefl _ _ Hnd Hin').
Qed.

(** The three maturities of the specification's example. *)
Lemma correlation_keys_witness :
  (forall term, In term (terms_of tie_frame) -> In term TERMS)
  /\ exists correlation,
      value_path (returned (format_bond_curve_data "c" tie_frame))
                 ["analysis"; "correlation"] = Some (VDict correlation)
      /\ dict_keys correlation = ["3年_5年"; "3年_10年"; "5年_10年"].
Proof.
  assert (Hvalid : forall term, In term (terms_of tie_frame) -> In term TERMS).
  { intros term Hin. vm_compute in Hin.
    repeat (destruct Hin as [<- | Hin]; [simpl; auto 10 |]). destruct Hin. }
  split; [exact Hvalid |].
  destruct (correlation_keys "c" tie_frame
              (returned (format_bond_curve_data "c" tie_frame)))
    as (correlation & Hpath & Hkeys & _).
  - vm_compute. reflexivity.
  - vm_compute. lia.
  - exact Hvalid.
  - exists correlation. split; [exact Hpath | exact Hkeys].
Defined.

(* ================================================================== *)
(** * Further properties of [format_bond_curve_data] *)
(* ================================================================== *)

(** ** When it returns and what it raises *)

Lemma count_occ_filter_keep (g : string -> bool) (l : list string) (x : string) :
  g x = true -> count_occ string_dec (filter g l) x = count_occ string_dec l x.
Proof.
  intros Hg. induction l as [| y l IH]; [reflexivity |].
  cbn [filter count_occ]. destruct (string_dec y x) as [-> | Hne].
  - rewrite Hg. cbn [count_occ]. destruct (string_dec x x); [| contradiction].
    now rewrite IH.
  - destruct (g y); cbn [count_occ]; [| exact IH].
    destruct (string_dec y x); [contradiction | exact IH].
Qed.

(** A maturity is listed in [terms] once for each column carrying it. *)
Lemma terms_of_count (df : DataFrame) (term : string) :
  term <> "日期" ->
  count_occ string_dec (terms_of df) term = List.length (getitem df term).
Proof.
  intros Hne. rewrite terms_of_eq, getitem_length.
  apply count_occ_filter_keep.
  destruct (String.eqb_spec term "日期"); [contradiction | reflexivity].
Qed.

Lemma getitem_of_distinct_terms (df : DataFrame) (term : string) :
  NoDup (terms_of df) -> In term (terms_of df) ->
  exists values, getitem df term = [values].
Proof.
  intros Hnd Hin.
  pose proof (proj1 (terms_of_In df term) Hin) as [Hne _].
  pose proof (proj1 (NoDup_count_occ' string_dec (terms_of df)) Hnd term Hin) as Hc.
  rewrite (terms_of_count df term Hne) in Hc.
  destruct (getitem df term) as [| values [| ? ?]]; try discriminate.
  now exists values.
Qed.




Lemma wf_frame_dates (df : DataFrame) :
  wf_frame df -> index df <> [] -> exists d ds, date_col df = d :: ds.
Proof.
  intros [Hlen _] Hne.
  destruct (date_col df) as [| d ds]; [| eauto].
  destruct (index df); [congruence | discriminate].
Qed.

Lemma format_returns_of_distinct (curve_name : string) (df : DataFrame) :
  wf_frame df -> index df <> [] -> NoDup (terms_of df) ->
  exists v, format_bond_curve_data curve_name df = Return v.
Proof.
  intros Hwf Hne Hnd. rewrite format_bond_curve_data_eq.
  destruct (wf_frame_dates df Hwf Hne) as (d & ds & ->).
  cbn [ts_min ts_max strftime_scalar bind].
  destruct (series_loop_returns df (terms_of df) []) as [s ->].
  - intros term Hin.
    destruct (getitem_of_distinct_terms df term Hnd Hin) as [values Hv].
    eapply series_entry_returns; eassumption.
  - cbn [bind]. eauto.
Qed.




(** ** Layout of the report *)

Lemma series_loop_keys (df : DataFrame) (terms : list string) (s0 s : dict) :
  series_loop df terms s0 = Return s ->
  NoDup terms ->
  (forall term, In term terms -> ~ In term (dict_keys s0)) ->
  dict_keys s = dict_keys s0 ++ terms.
Proof.
  revert s0. induction terms as [| t terms IH]; intros s0; unfold series_loop; simpl.
  - intros [= <-] _ _. now rewrite app_nil_r.
  - destruct (series_entry df t) as [entry | e]; cbn [bind]; [| discriminate].
    intros Hloop Hnd Hfresh. inversion Hnd as [| ? ? Hni Hnd']; subst.
    rewrite (IH _ Hloop Hnd').
    + rewrite dict_keys_set.
      destruct (in_dec string_dec t (dict_keys s0)) as [Hin | _].
      * exfalso. apply (Hfresh t); [now left | exact Hin].
      * now rewrite <- app_assoc.
    + intros term Hin. rewrite dict_keys_set.
      destruct (in_dec string_dec t (dict_keys s0)) as [_ | _].
      * apply Hfresh. now right.
      * intros H. apply in_app_or in H as [H | [<- | []]].
        -- apply (Hfresh term); [now right | exact H].
        -- contradiction.
Qed.

(** X2. The layout of a returned report: the top-level keys are
    [metadata], [series] and, with more than one maturity, [analysis], in
    that order and nothing else -- in particular no [error]; [metadata]
    has the keys [curve_name], [time_range], [currency], and [curve_name]
    is the name that was passed in; the keys of [series] are the
    maturities of the frame, each once, in column order. *)
Theorem report_layout (curve_name : string) (df : DataFrame) (v : value) :
  format_bond_curve_data curve_name df = Return v ->
  exists top metadata series,
    v = VDict top
    /\ dict_keys top
       = ["metadata"; "series"]
         ++ (if Nat.ltb 1 (List.length (terms_of df)) then ["analysis"] else [])
    /\ dict_get top "metadata" = Some (VDict metadata)
    /\ dict_keys metadata = ["curve_name"; "time_range"; "currency"]
    /\ dict_get metadata "curve_name" = Some (VStr curve_name)
    /\ dict_get top "series" = Some (VDict series)
    /\ dict_keys series = terms_of df.
Proof.
  intros Hret.
  destruct (format_returns_distinct _ _ _ Hret) as [_ Hnd].
  apply format_returns_inv in Hret as (dmin & dmax & series & _ & _ & Hloop & ->).
  pose proof (series_loop_keys _ _ _ _ Hloop Hnd (fun _ _ H => H)) as Hkeys.
  unfold report_of. do 3 eexists. split; [reflexivity |].
  split; [destruct (Nat.ltb 1 (List.length (terms_of df))); reflexivity |].
  split; [reflexivity |]. split; [reflexivity |]. split; [reflexivity |].
  split; [reflexivity | exact Hkeys].
Qed.

Lemma report_layout_witness :
  exists top series,
    returned (format_bond_curve_data "c" tie_frame) = VDict top
    /\ dict_keys top = ["metadata"; "series"; "analysis"]
    /\ dict_get top "series" = Some (VDict series)
    /\ dict_keys series = ["3年"; "5年"; "10年"].
Proof.
  destruct (report_layout "c" tie_frame (returned (format_bond_curve_data "c" tie_frame)))
    as (top & metadata & series & Hv & Htop & _ & _ & _ & Hseries & Hkeys).
  - vm_compute. reflexivity.
  - exists top, series. repeat split; assumption.
Defined.

(** ** Daily data *)

Lemma nth_error_combine {A B : Type} (l : list A) (l' : list B) (i : nat) (a : A) (b : B) :
  nth_error l i = Some a -> nth_error l' i = Some b ->
  nth_error (combine l l') i = Some (a, b).
Proof.
  revert l' i. induction l as [| x l IH]; intros [| y l'] [| i]; simpl;
    try discriminate.
  - now intros [= ->] [= ->].
  - apply IH.
Qed.

(** X3. On a well-formed frame the [daily_data] of a maturity has one
    entry per row, in row order: entry [i] is the dict with exactly the
    keys [date] and [yield], holding the date of row [i] printed as
    [YYYYMMDD] and the value of row [i], unrounded. *)
Theorem daily_data_rows (curve_name : string) (df : DataFrame) (v : value)
        (term : string) (values : list Q) :
  format_bond_curve_data curve_name df = Return v ->
  wf_frame df ->
  term <> "日期" ->
  In (term, values) (cols df) ->
  exists daily,
    value_path v ["series"; term; "daily_data"] = Some (VList daily)
    /\ List.length daily = List.length (index df)
    /\ forall i d y,
         nth_error (date_col df) i = Some d ->
         nth_error values i = Some y ->
         nth_error daily i
         = Some (VDict [("date", VStr (strftime "%Y%m%d" d)); ("yield", VNum y)]).
Proof.
  intros Hret Hwf Hne Hin.
  destruct (report_series_entry _ _ _ _ _ Hret Hne Hin)
    as (imax & imin & max_date & min_date & _ & _ & _ & _ & _ & Hpath).
  pose proof (wf_frame_column _ _ _ Hwf Hin) as Hlen.
  destruct Hwf as [Hdates _].
  eexists. split; [| split].
  - change ["series"; term; "daily_data"] with (["series"; term] ++ ["daily_data"]).
    rewrite value_path_app, Hpath. reflexivity.
  - rewrite length_map, length_combine, length_map. lia.
  - intros i d y Hd Hy.
    rewrite nth_error_map.
    rewrite (nth_error_combine _ _ i (strftime "%Y%m%d" d) y);
      [reflexivity | | exact Hy].
    rewrite nth_error_map, Hd. reflexivity.
Qed.

Lemma daily_data_rows_witness :
  wf_frame tie_frame
  /\ exists daily,
      value_path (returned (format_bond_curve_data "c" tie_frame))
                 ["series"; "10年"; "daily_data"] = Some (VList daily)
      /\ List.length daily = 3%nat
      /\ nth_error daily 2
         = Some (VDict [("date", VStr "20250106"); ("yield", VNum (7 # 2))]).
Proof.
  assert (Hwf : wf_frame tie_frame).
  { split; [reflexivity | repeat constructor]. }
  split; [exact Hwf |].
  destruct (daily_data_rows "c" tie_frame
              (returned (format_bond_curve_data "c" tie_frame))
              "10年" [2 # 1; 3 # 1; 7 # 2]%Q)
    as (daily & Hpath & Hlen & Hnth).
  - vm_compute. reflexivity.
  - exact Hwf.
  - discriminate.
  - simpl. auto.
  - exists daily. split; [exact Hpath |]. split; [exact Hlen |].
    apply (Hnth 2%nat (mkTimestamp 2025 1 6) (7 # 2)%Q); reflexivity.
Defined.

(* ================================================================== *)
(** * Further properties of [get_china_bond_curve] *)
(* ================================================================== *)

(** ** The tool in closed form *)

Lemma passes_assertions_valid (bond_curve_name : string) (term_list : list string) :
  passes_assertions bond_curve_name term_list = true
  <-> valid_request bond_curve_name term_list.
Proof.
  unfold passes_assertions. split.
  - intros H. apply andb_true_iff in H as [H H3]. apply andb_true_iff in H as [H1 H2].
    split; [now apply mem_In |]. split.
    + intros term Hin. rewrite forallb_forall in H2. apply mem_In. auto.
    + intros [-> Hin]. rewrite String.eqb_refl in H3.
      apply mem_In in Hin. rewrite Hin in H3. discriminate.
  - intros H. apply valid_request_asserts in H as (-> & -> & ->). reflexivity.
Qed.

Lemma get_china_bond_curve_run (ak : provider) (bond_curve_name : string)
      (term_list : term_arg) (start_date end_date : date_arg) (tr : list event) :
  let terms := terms_of_arg term_list in
  let s := str_date start_date in
  let e := str_date end_date in
  get_china_bond_curve ak bond_curve_name term_list start_date end_date tr
  = if passes_assertions bond_curve_name terms
    then (Return (answer ak bond_curve_name terms s e),
          tr ++ CallProvider s e
             :: (if core_called ak bond_curve_name terms s e
                 then [CallCore bond_curve_name] else []))
    else (Raise AssertionError, tr).
Proof.
  cbv zeta. unfold get_china_bond_curve, passes_assertions.
  fold (terms_of_arg term_list).
  unfold io_bind at 1. unfold assert at 1.
  destruct (mem bond_curve_name CURVE_NAMES); [| reflexivity].
  unfold io_ret at 1. unfold io_bind at 1. unfold assert at 1.
  destruct (forallb (fun term => mem term TERMS) (terms_of_arg term_list));
    [| reflexivity].
  unfold io_ret at 1. unfold io_bind at 1. unfold assert at 1.
  destruct (if String.eqb bond_curve_name "中债中短期票据收益率曲线(AAA)"
            then negb (mem "30年" (terms_of_arg term_list)) else true);
    [| reflexivity].
  cbn [andb].
  unfold try_except, io_bind, io_emit, io_lift, io_ret, answer, core_called.
  destruct (ak (str_date start_date) (str_date end_date)) as [raw | e];
    [| reflexivity].
  destruct (p_index raw) as [| i idx]; [reflexivity |].
  destruct (select_curve raw bond_curve_name (terms_of_arg term_list)) as [df | e];
    [| reflexivity].
  rewrite <- app_assoc.
  destruct (format_bond_curve_data bond_curve_name df); reflexivity.
Qed.

(** ** Selecting the curve and the columns *)

Lemma select_mask_length_eq {A B : Type} (mask : list bool) (l : list A) (l' : list B) :
  List.length l = List.length l' ->
  List.length (select_mask mask l) = List.length (select_mask mask l').
Proof.
  revert l l'. induction mask as [| b mask IH]; intros [| a l] [| a' l'] Hlen;
    try discriminate; try reflexivity.
  simpl in Hlen. destruct b; simpl; auto.
Qed.

Lemma select_mask_some {A : Type} (keys : list string) (name : string) (l : list A) :
  In name keys -> List.length l = List.length keys ->
  select_mask (map (fun c => String.eqb c name) keys) l <> [].
Proof.
  revert l. induction keys as [| k keys IH]; intros l Hin Hlen; [destruct Hin |].
  destruct l as [| a l]; [discriminate |]. simpl.
  destruct (String.eqb_spec k name) as [_ | Hne]; [discriminate |].
  destruct Hin as [-> | Hin]; [contradiction |].
  apply IH; [assumption | simpl in Hlen; lia].
Qed.

Lemma filter_label_unique (cs : list (string * list Q)) (t : string) (xs : list Q) :
  NoDup (map fst cs) -> In (t, xs) cs ->
  filter (fun c => String.eqb (fst c) t) cs = [(t, xs)].
Proof.
  induction cs as [| [t' xs'] cs IH]; simpl; [tauto |].
  intros Hnd Hin. inversion Hnd as [| ? ? Hni Hnd']; subst.
  destruct Hin as [[= -> ->] | Hin].
  - rewrite String.eqb_refl. f_equal.
    clear IH Hnd Hnd'. induction cs as [| [t' xs'] cs IH]; simpl; [reflexivity |].
    destruct (String.eqb_spec t' t) as [-> |].
    + exfalso. apply Hni. now left.
    + apply IH. simpl in Hni. tauto.
  - destruct (String.eqb_spec t' t) as [-> |].
    + exfalso. apply Hni. change t with (fst (t, xs)). now apply in_map.
    + auto.
Qed.

(** When every requested label has a column the selection succeeds, and
    its result is the rows of the curve under the requested labels. *)
Lemma select_curve_present (raw : ProviderFrame) (bond_curve_name : string)
      (term_list : list string) :
  (forall term, In term term_list -> In term (map fst (p_cols raw))) ->
  exists df,
    select_curve raw bond_curve_name term_list = Return df
    /\ index df
       = select_mask (map (fun c => String.eqb c bond_curve_name) (p_curve raw))
                     (p_index raw)
    /\ date_col df
       = select_mask (map (fun c => String.eqb c bond_curve_name) (p_curve raw))
                     (p_date raw)
    /\ cols df
       = flat_map
           (fun lbl =>
              map (fun c =>
                     (fst c,
                      select_mask (map (fun c => String.eqb c bond_curve_name)
                                       (p_curve raw)) (snd c)))
                  (filter (fun c => String.eqb (fst c) lbl) (p_cols raw)))
           term_list.
Proof.
  intros Hall. unfold select_curve.
  assert (Hnone : filter (fun lbl =>
                    negb (existsb (fun c => String.eqb (fst c) lbl) (p_cols raw)))
                    term_list = []).
  { induction term_list as [| t terms IH]; [reflexivity |]. cbn [filter].
    assert (Ht : existsb (fun c => String.eqb (fst c) t) (p_cols raw) = true).
    { apply existsb_exists.
      destruct (proj1 (in_map_iff _ _ _) (Hall t (or_introl eq_refl)))
        as ([t' xs] & E & Hin). simpl in E. subst t'.
      exists (t, xs). split; [assumption | apply String.eqb_refl]. }
    rewrite Ht. cbn [negb]. apply IH. intros term Hin. apply Hall. now right. }
  rewrite Hnone. eexists. split; [reflexivity |]. repeat split.
Qed.


(** With distinct provider labels the selected frame has one column per
    requested label, in the requested order. *)
Lemma selected_columns (raw : ProviderFrame) (mask : list bool) (term_list : list string) :
  NoDup (map fst (p_cols raw)) ->
  (forall term, In term term_list -> In term (map fst (p_cols raw))) ->
  let selected :=
    flat_map
      (fun lbl =>
         map (fun c => (fst c, select_mask mask (snd c)))
             (filter (fun c => String.eqb (fst c) lbl) (p_cols raw)))
      term_list in
  map fst selected = term_list
  /\ (forall term xs, In term term_list -> In (term, xs) (p_cols raw) ->
        In (term, select_mask mask xs) selected)
  /\ (forall c, In c selected ->
        exists xs, In (fst c, xs) (p_cols raw) /\ snd c = select_mask mask xs).
Proof.
  intros Hnd Hall. cbv zeta.
  induction term_list as [| t terms IH]; cbn [flat_map map].
  - repeat split; intros; contradiction.
  - destruct (proj1 (in_map_iff _ _ _) (Hall t (or_introl eq_refl)))
      as ([t' xs] & E & Hin). simpl in E. subst t'.
    rewrite (filter_label_unique _ _ _ Hnd Hin). cbn [map app fst snd].
    destruct IH as (IH1 & IH2 & IH3); [intros term H; apply Hall; now right |].
    split; [now rewrite IH1 |]. split.
    + intros term xs' [<- | Hterm] Hcol.
      * left. f_equal. f_equal.
        pose proof (filter_label_unique _ _ _ Hnd Hcol) as E.
        rewrite (filter_label_unique _ _ _ Hnd Hin) in E. now injection E.
      * right. auto.
    + intros c [<- | Hc]; [exists xs; auto | auto].
Qed.

Lemma terms_without_date (terms : list string) :
  (forall term, In term terms -> In term TERMS) ->
  filter (fun col => negb (String.eqb col "日期")) terms = terms.
Proof.
  intros H. induction terms as [| t terms IH]; [reflexivity |].
  cbn [filter]. destruct (String.eqb_spec t "日期") as [E | _].
  - exfalso. apply (TERMS_not_date t); [apply H; now left | exact E].
  - cbn [negb]. f_equal. apply IH. intros term Hin. apply H. now right.
Qed.

(** The frame the tool hands to the core, for a valid request on a
    well-formed provider table that has every requested column. *)
Lemma selected_frame (raw : ProviderFrame) (bond_curve_name : string)
      (term_list : list string) :
  wf_provider raw ->
  (forall term, In term term_list -> In term TERMS) ->
  (forall term, In term term_list -> In term (map fst (p_cols raw))) ->
  exists df,
    select_curve raw bond_curve_name term_list = Return df
    /\ wf_frame df
    /\ terms_of df = term_list
    /\ date_col df
       = select_mask (map (fun c => String.eqb c bond_curve_name) (p_curve raw))
                     (p_date raw)
    /\ (In bond_curve_name (p_curve raw) -> index df <> [])
    /\ (forall term xs, In term term_list -> In (term, xs) (p_cols raw) ->
          In (term,
              select_mask (map (fun c => String.eqb c bond_curve_name) (p_curve raw)) xs)
             (cols df)).
Proof.
  intros (Hcurve & Hdate & Hcols & Hnd) Hvalid Hall.
  destruct (select_curve_present raw bond_curve_name term_list Hall)
    as (df & Hsel & Hidx & Hdates & Hc).
  destruct (selected_columns raw
              (map (fun c => String.eqb c bond_curve_name) (p_curve raw))
              term_list Hnd Hall) as (Hnames & Hin & Hfrom).
  cbv zeta in *. rewrite <- Hc in Hnames, Hin, Hfrom.
  exists df. split; [exact Hsel |]. split; [| split; [| split; [| split]]].
  - split.
    + rewrite Hidx, Hdates. apply select_mask_length_eq. congruence.
    + apply Forall_forall. intros c Hcin.
      destruct (Hfrom c Hcin) as (xs & Hxs & ->). rewrite Hidx.
      apply select_mask_length_eq. rewrite Forall_forall in Hcols.
      exact (Hcols _ Hxs).
  - rewrite terms_of_eq, Hnames. now apply terms_without_date.
  - exact Hdates.
  - intros Hrow. rewrite Hidx. apply select_mask_some; [assumption | congruence].
  - exact Hin.
Qed.

Lemma sample_raw_wf : wf_provider sample_raw.
Proof.
  split; [reflexivity |]. split; [reflexivity |]. split.
  - repeat constructor.
  - repeat (constructor; [simpl; intuition discriminate |]). constructor.
Qed.

Lemma sample_terms_valid (terms : list string) :
  (forall term, In term terms -> In term TERMS) ->
  valid_request "中债国债收益率曲线" terms.
Proof.
  intros H. split; [simpl; auto |]. split; [exact H |].
  intros [E _]. discriminate E.
Qed.

Lemma provider_has_rows (raw : ProviderFrame) (bond_curve_name : string) :
  wf_provider raw -> In bond_curve_name (p_curve raw) -> p_index raw <> [].
Proof.
  intros (Hlen & _) Hin E. rewrite E in Hlen.
  destruct (p_curve raw); [destruct Hin | discriminate].
Qed.

(** ** What is called, and when *)

(** X10. One call of the tool does one of three things.  It fails an
    assertion and calls nothing.  Or it queries the provider once, with
    both dates as strings, and returns without entering the core.  Or it
    queries the provider once and then runs the core once -- which
    happens only when the provider answered with rows and every requested
    label has a column.  It never queries twice and never runs the core
    first. *)
Theorem tool_calls (ak : provider) (bond_curve_name : string)
        (term_list : term_arg) (start_date end_date : date_arg) (tr : list event) :
  let terms := terms_of_arg term_list in
  let s := str_date start_date in
  let e := str_date end_date in
  let run := get_china_bond_curve ak bond_curve_name term_list start_date end_date tr in
  (run = (Raise AssertionError, tr) /\ ~ valid_request bond_curve_name terms)
  \/ (valid_request bond_curve_name terms
      /\ ((exists v, run = (Return v, tr ++ [CallProvider s e])
                     /\ core_called ak bond_curve_name terms s e = false)
          \/ (exists v raw df,
                 run = (Return v, tr ++ [CallProvider s e; CallCore bond_curve_name])
                 /\ ak s e = Return raw
                 /\ p_index raw <> []
                 /\ select_curve raw bond_curve_name terms = Return df))).
Proof.
  cbv zeta. rewrite get_china_bond_curve_run. cbv zeta.
  destruct (passes_assertions bond_curve_name (terms_of_arg term_list)) eqn:Hpass.
  - right. split; [now apply passes_assertions_valid |].
    destruct (core_called ak bond_curve_name (terms_of_arg term_list)
                          (str_date start_date) (str_date end_date)) eqn:Hcore.
    + right. unfold core_called in Hcore.
      destruct (ak (str_date start_date) (str_date end_date)) as [raw | ?];
        [| discriminate].
      destruct (p_index raw) as [| i idx] eqn:Hidx; [discriminate |].
      destruct (select_curve raw bond_curve_name (terms_of_arg term_list))
        as [df | ?] eqn:Hsel; [| discriminate].
      eexists. exists raw, df.
      split; [reflexivity |]. split; [reflexivity |].
      split; [rewrite Hidx; discriminate | exact Hsel].
    + left. eexists. split; reflexivity.
  - left. split; [reflexivity |].
    intros Hvalid. apply passes_assertions_valid in Hvalid. congruence.
Qed.

(** ** A request that succeeds *)

(** X11. A valid request for distinct maturities gets a report -- not
    an error -- whenever the provider's table is well formed, has a
    column for each requested maturity and at least one row of the
    requested curve.  The report is complete for every requested
    maturity and carries the requested curve name; the provider and then
    the core were each called once. *)
Theorem tool_returns_report (ak : provider) (bond_curve_name : string)
        (term_list : term_arg) (start_date end_date : date_arg) (tr : list event)
        (raw : ProviderFrame) :
  valid_request bond_curve_name (terms_of_arg term_list) ->
  NoDup (terms_of_arg term_list) ->
  ak (str_date start_date) (str_date end_date) = Return raw ->
  wf_provider raw ->
  In bond_curve_name (p_curve raw) ->
  (forall term, In term (terms_of_arg term_list) -> In term (map fst (p_cols raw))) ->
  exists v,
    get_china_bond_curve ak bond_curve_name term_list start_date end_date tr
    = (Return v,
       tr ++ [CallProvider (str_date start_date) (str_date end_date);
              CallCore bond_curve_name])
    /\ complete_report v (terms_of_arg term_list)
    /\ value_path v ["metadata"; "curve_name"] = Some (VStr bond_curve_name).
Proof.
  intros Hvalid Hnd Hak Hwf Hrow Hall.
  pose proof (provider_has_rows _ _ Hwf Hrow) as Hrows.
  destruct Hvalid as (Hname & Hterms & Hcombo).
  destruct (selected_frame raw bond_curve_name _ Hwf Hterms Hall)
    as (df & Hsel & Hwfdf & Hts & _ & Hidx & Hin).
  destruct (format_returns_of_distinct bond_curve_name df Hwfdf (Hidx Hrow))
    as [v Hfmt]; [now rewrite Hts |].
  rewrite get_china_bond_curve_run. cbv zeta.
  rewrite (proj2 (passes_assertions_valid _ _) (conj Hname (conj Hterms Hcombo))).
  unfold answer, core_called. rewrite Hak.
  destruct (p_index raw) as [| i idx]; [congruence |].
  rewrite Hsel, Hfmt. exists v. split; [reflexivity |]. split.
  - apply (format_complete _ _ _ _ Hfmt). intros term Ht. split.
    + apply TERMS_not_date. auto.
    + eapply select_curve_terms; eassumption.
  - apply format_returns_inv in Hfmt as (? & ? & ? & _ & _ & _ & ->). reflexivity.
Qed.

Lemma tool_returns_report_witness :
  exists v,
    get_china_bond_curve sample_provider "中债国债收益率曲线"
                         (TermList ["3月"; "10年"]) (DateInt 20250101)
                         (DateStr "20250105") []
    = (Return v, [CallProvider "20250101" "20250105"; CallCore "中债国债收益率曲线"])
    /\ value_path v ["metadata"; "curve_name"] = Some (VStr "中债国债收益率曲线").
Proof.
  destruct (tool_returns_report
              sample_provider "中债国债收益率曲线" (TermList ["3月"; "10年"])
              (DateInt 20250101) (DateStr "20250105") [] sample_raw)
    as (v & Hrun & _ & Hname).
  - apply sample_terms_valid. intros term [<- | [<- | []]]; simpl; auto 10.
  - repeat (constructor; [simpl; intuition discriminate |]). constructor.
  - reflexivity.
  - exact sample_raw_wf.
  - simpl. auto.
  - intros term [<- | [<- | []]]; simpl; auto.
  - exists v. split; [exact Hrun | exact Hname].
Defined.

(** ** Only the rows of the requested curve *)

Lemma combine_select_mask {A B : Type} (keys : list string) (name : string)
      (l : list A) (l' : list B) :
  combine (select_mask (map (fun c => String.eqb c name) keys) l)
          (select_mask (map (fun c => String.eqb c name) keys) l')
  = map snd (filter (fun row => String.eqb (fst row) name)
                    (combine keys (combine l l'))).
Proof.
  revert l l'. induction keys as [| k keys IH]; intros l l'; [reflexivity |].
  destruct l as [| a l]; [reflexivity |].
  destruct l' as [| b l'].
  - cbn [combine]. destruct (k =? name)%string; cbn [map select_mask];
      now rewrite combine_nil.
  - cbn [map select_mask combine filter fst].
    destruct (k =? name)%string; cbn [combine map snd]; now rewrite IH.
Qed.

(** X12. The daily data of a maturity are the provider's rows whose
    [曲线名称] is the requested curve, in the provider's order, each
    with its date and its value in the maturity's column; rows of other
    curves do not appear. *)
Theorem tool_reports_rows_of_the_curve (ak : provider) (bond_curve_name : string)
        (term_list : term_arg) (start_date end_date : date_arg) (tr : list event)
        (raw : ProviderFrame) (term : string) (xs : list Q) :
  valid_request bond_curve_name (terms_of_arg term_list) ->
  NoDup (terms_of_arg term_list) ->
  ak (str_date start_date) (str_date end_date) = Return raw ->
  wf_provider raw ->
  In bond_curve_name (p_curve raw) ->
  (forall term, In term (terms_of_arg term_list) -> In term (map fst (p_cols raw))) ->
  In term (terms_of_arg term_list) ->
  In (term, xs) (p_cols raw) ->
  exists v tr',
    get_china_bond_curve ak bond_curve_name term_list start_date end_date tr
    = (Return v, tr')
    /\ value_path v ["series"; term; "daily_data"]
       = Some (VList
                 (map (fun row =>
                         VDict [("date", VStr (strftime "%Y%m%d" (fst (snd row))));
                                ("yield", VNum (snd (snd row)))])
                      (filter (fun row => String.eqb (fst row) bond_curve_name)
                              (combine (p_curve raw) (combine (p_date raw) xs))))).
Proof.
  intros Hvalid Hnd Hak Hwf Hrow Hall Hterm Hcol.
  pose proof (provider_has_rows _ _ Hwf Hrow) as Hrows.
  destruct Hvalid as (Hname & Hterms & Hcombo).
  destruct (selected_frame raw bond_curve_name _ Hwf Hterms Hall)
    as (df & Hsel & Hwfdf & Hts & Hdates & Hidx & Hin).
  destruct (format_returns_of_distinct bond_curve_name df Hwfdf (Hidx Hrow))
    as [v Hfmt]; [now rewrite Hts |].
  rewrite get_china_bond_curve_run. cbv zeta.
  rewrite (proj2 (passes_assertions_valid _ _) (conj Hname (conj Hterms Hcombo))).
  unfold answer. rewrite Hak.
  destruct (p_index raw) as [| i idx]; [congruence |].
  rewrite Hsel, Hfmt. exists v. eexists. split; [reflexivity |].
  destruct (report_series_entry _ _ _ _ _ Hfmt (TERMS_not_date _ (Hterms _ Hterm))
              (Hin term xs Hterm Hcol))
    as (imax & imin & max_date & min_date & _ & _ & _ & _ & _ & Hpath).
  change ["series"; term; "daily_data"] with (["series"; term] ++ ["daily_data"]).
  rewrite value_path_app, Hpath.
  cbn [value_path value_get dict_get String.eqb Ascii.eqb Bool.eqb].
  unfold daily_data_of. rewrite Hdates, combine_map_l, combine_select_mask.
  now rewrite !map_map.
Qed.

Lemma tool_reports_rows_of_the_curve_witness :
  exists v tr',
    get_china_bond_curve sample_provider "中债国债收益率曲线"
                         (TermStr "10年") (DateInt 20250101) (DateStr "20250105") []
    = (Return v, tr')
    /\ value_path v ["series"; "10年"; "daily_data"]
       = Some (VList
                 [VDict [("date", VStr "20250102"); ("yield", VNum (16077 # 10000))];
                  VDict [("date", VStr "20250103"); ("yield", VNum (16041 # 10000))]]).
Proof.
  destruct (tool_reports_rows_of_the_curve
              sample_provider "中债国债收益率曲线" (TermStr "10年")
              (DateInt 20250101) (DateStr "20250105") [] sample_raw
              "10年" [16077 # 10000; 2 # 1; 16041 # 10000; 3 # 1]%Q)
    as (v & tr' & Hrun & Hdaily).
  - apply sample_terms_valid. intros term [<- | []]; simpl; auto 10.
  - repeat (constructor; [simpl; intuition discriminate |]). constructor.
  - reflexivity.
  - exact sample_raw_wf.
  - simpl. auto.
  - intros term [<- | []]; simpl; auto.
  - simpl. auto.
  - simpl. auto.
  - exists v, tr'. split; [exact Hrun | exact Hdaily].
Defined.

(** ** Requests that pass the assertions and still fail *)





(** ** The empty list of maturities *)

(** X15. An empty list of maturities passes the assertions.  With rows
    of the curve the tool then returns a report that has the metadata
    (with the date range of the curve's rows) and an empty [series], and
    no [analysis]. *)
Theorem tool_accepts_empty_term_list (ak : provider) (bond_curve_name : string)
        (start_date end_date : date_arg) (tr : list event) (raw : ProviderFrame) :
  In bond_curve_name CURVE_NAMES ->
  ak (str_date start_date) (str_date end_date) = Return raw ->
  wf_provider raw ->
  In bond_curve_name (p_curve raw) ->
  exists dmin dmax,
    ts_min (select_mask (map (fun c => String.eqb c bond_curve_name) (p_curve raw))
                        (p_date raw)) = Some dmin
    /\ ts_max (select_mask (map (fun c => String.eqb c bond_curve_name) (p_curve raw))
                           (p_date raw)) = Some dmax
    /\ get_china_bond_curve ak bond_curve_name (TermList []) start_date end_date tr
       = (Return
            (VDict
               [("metadata",
                 VDict [("curve_name", VStr bond_curve_name);
                        ("time_range",
                         VList [VStr (strftime "%Y-%m-%d" dmin);
                                VStr (strftime "%Y-%m-%d" dmax)]);
                        ("currency", VStr "CNY")]);
                ("series", VDict [])]),
          tr ++ [CallProvider (str_date start_date) (str_date end_date);
                 CallCore bond_curve_name]).
Proof.
  intros Hname Hak Hwf Hrow.
  pose proof (provider_has_rows _ _ Hwf Hrow) as Hrows.
  assert (Hvalid : valid_request bond_curve_name []).
  { split; [exact Hname |]. split; [intros ? [] | intros [_ []]]. }
  destruct (selected_frame raw bond_curve_name [] Hwf (fun _ H => match H with end)
              (fun _ H => match H with end))
    as (df & Hsel & Hwfdf & Hts & Hdates & Hidx & _).
  destruct (wf_frame_dates df Hwfdf (Hidx Hrow)) as (d & ds & Hd).
  rewrite <- Hdates, Hd. cbn [ts_min ts_max]. do 2 eexists.
  split; [reflexivity |]. split; [reflexivity |].
  rewrite get_china_bond_curve_run. cbv zeta. cbn [terms_of_arg].
  rewrite (proj2 (passes_assertions_valid _ _) Hvalid).
  unfold answer, core_called. rewrite Hak.
  destruct (p_index raw) as [| i idx]; [congruence |].
  rewrite Hsel, format_bond_curve_data_eq, Hd.
  cbn [ts_min ts_max strftime_scalar bind]. unfold report_of. rewrite Hts.
  reflexivity.
Qed.

Lemma tool_accepts_empty_term_list_witness :
  get_china_bond_curve sample_provider "中债国债收益率曲线" (TermList [])
                       (DateInt 20250101) (DateStr "20250105") []
  = (Return
       (VDict
          [("metadata",
            VDict [("curve_name", VStr "中债国债收益率曲线");
                   ("time_range", VList [VStr "2025-01-02"; VStr "2025-01-03"]);
                   ("currency", VStr "CNY")]);
           ("series", VDict [])]),
     [CallProvider "20250101" "20250105"; CallCore "中债国债收益率曲线"]).
Proof.
  destruct (tool_accepts_empty_term_list
              sample_provider "中债国债收益率曲线" (DateInt 20250101)
              (DateStr "20250105") [] sample_raw)
    as (dmin & dmax & Hmin & Hmax & Hrun).
  - simpl. auto.
  - reflexivity.
  - exact sample_raw_wf.
  - simpl. auto.
  - rewrite Hrun. vm_compute in Hmin, Hmax.
    injection Hmin as <-. injection Hmax as <-. reflexivity.
Defined.

(* ================================================================== *)
(** * One maturity at a time *)
(* ================================================================== *)

(** X16. The whole entry of a maturity -- daily data, extrema with
    their dates, and the other statistics -- is determined by the row
    labels, the dates and that maturity's column: two frames that agree
    on these give the same entry, whatever their other columns and
    whatever the curve name. *)
Theorem series_entry_independent (curve_name curve_name' : string)
        (df df' : DataFrame) (v v' : value) (term : string) (values : list Q) :
  format_bond_curve_data curve_name df = Return v ->
  format_bond_curve_data curve_name' df' = Return v' ->
  index df' = index df ->
  date_col df' = date_col df ->
  term <> "日期" ->
  In (term, values) (cols df) ->
  In (term, values) (cols df') ->
  value_path v' ["series"; term] = value_path v ["series"; term].
Proof.
  intros Hret Hret' Hidx Hdates Hne Hin Hin'.
  destruct (report_series_entry _ _ _ _ _ Hret Hne Hin)
    as (imax & imin & max_date & min_date & _ & H1 & H2 & H3 & H4 & ->).
  destruct (report_series_entry _ _ _ _ _ Hret' Hne Hin')
    as (imax' & imin' & max_date' & min_date' & _ & H1' & H2' & H3' & H4' & ->).
  rewrite Hidx in H1', H2', H3', H4'. rewrite Hdates in H3', H4' |- *.
  rewrite H1 in H1'. injection H1' as <-.
  rewrite H2 in H2'. injection H2' as <-.
  rewrite H3 in H3'. injection H3' as <-.
  rewrite H4 in H4'. injection H4' as <-.
  reflexivity.
Qed.

Lemma series_entry_independent_witness :
  value_path (returned (format_bond_curve_data "another curve" swapped_frame))
             ["series"; "10年"]
  = value_path (returned (format_bond_curve_data "c" tie_frame)) ["series"; "10年"].
Proof.
  apply (series_entry_independent
           "c" "another curve" tie_frame swapped_frame
           (returned (format_bond_curve_data "c" tie_frame))
           (returned (format_bond_curve_data "another curve" swapped_frame))
           "10年" [2 # 1; 3 # 1; 7 # 2]%Q).
  - vm_compute. reflexivity.
  - vm_compute. reflexivity.
  - reflexivity.
  - reflexivity.
  - discriminate.
  - simpl. auto.
  - simpl. auto.
Defined.
